(** * easy_drone: command scheduling and maneuver geometry

    A shallow embedding of [easy_drone/abstract_drone.py],
    [easy_drone/abstract_plugin.py] and [easy_drone/plugins/offboard.py].

    Python's [float] is kept abstract behind the interface [PyFloat]
    (arithmetic and comparison) and [PyMath] (the functions imported from
    [math], which can raise).  The engine is written once against that
    interface and run at two instances: the real numbers (the idealised
    arithmetic, for the statements that hold up to rounding) and IEEE
    binary64 (Rocq's primitive floats under CPython's [math] module, for
    the statements about signed zeros, the boundary of a comparison and
    overflow). *)

From Stdlib Require Import Reals Lra Lia List Bool ZArith String.
From Stdlib Require Import Floats.PrimFloat Numbers.Cyclic.Int63.Uint63.
From Stdlib Require Floats.SpecFloat Floats.FloatOps Floats.FloatAxioms.
Import ListNotations.

Set Implicit Arguments.

(** ** Exceptions *)

Inductive PyException : Type :=
| IndexError (msg : string)
| ActionError (msg : string)
| OffboardError (msg : string)
| AttributeError (msg : string)
| RuntimeError (msg : string)
| NameError (msg : string)
| ValueError (msg : string)
| OverflowError (msg : string)
| OtherException (msg : string).

(** What evaluating an expression gives: a value, or the exception it
    raises. *)
Inductive Result (A : Type) : Type :=
| Ok (a : A)
| Raise (e : PyException).
Arguments Raise {A}.

Definition bind {A B : Type} (r : Result A) (k : A -> Result B) : Result B :=
  match r with
  | Ok a => k a
  | Raise e => Raise e
  end.

Notation "x <- r ;; k" := (bind r (fun x => k))
  (at level 61, r at next level, right associativity).

(** ** Numbers *)

Declare Scope py_scope.
Delimit Scope py_scope with py.

(** The operators on [float]: none of those the engine uses raises (an
    overflowing product is an infinity). *)
Class PyFloat (num : Type) : Type := {
  of_int : Z -> num;            (* an int literal used in float arithmetic *)
  add : num -> num -> num;
  sub : num -> num -> num;
  mul : num -> num -> num;
  div : num -> num -> num;      (* true division [/] *)
  lt : num -> num -> bool       (* [<] *)
}.

(** The functions imported from [math].  [sqrt], [pow], [sin] and [cos]
    raise on some arguments; [atan2], [radians] and [degrees] do not. *)
Class PyMath (num : Type) `{PyFloat num} : Type := {
  sqrt : num -> Result num;
  pow : num -> num -> Result num;
  sin : num -> Result num;
  cos : num -> Result num;
  atan2 : num -> num -> num;    (* [atan2(y, x)] *)
  radians : num -> num;
  degrees : num -> num
}.
Arguments PyMath num {_}.

Infix "+" := add : py_scope.
Infix "-" := sub : py_scope.
Infix "*" := mul : py_scope.
Infix "/" := div : py_scope.
Infix "<?" := lt : py_scope.

Definition domain_error : PyException := ValueError "math domain error".
Definition range_error : PyException := OverflowError "math range error".

(** *** The real numbers *)

Module RealNum.
Local Open Scope R_scope.

Definition Rlt_bool (x y : R) : bool := if Rlt_dec x y then true else false.

(** [math.sqrt(x)] *)
Definition Rsqrt (x : R) : Result R :=
  if Rlt_dec x 0 then Raise domain_error else Ok (R_sqrt.sqrt x).

(** [math.pow(x, y)]: repeated multiplication for an integral exponent,
    [exp (y * ln x)] otherwise; zero to a negative power and a negative
    base to a fractional power are domain errors.  No real is too large:
    this instance never raises a range error. *)
Definition Rpow (x y : R) : Result R :=
  if Req_dec_T x 0 then
    if Rlt_dec y 0 then Raise domain_error
    else Ok (if Req_dec_T y 0 then 1 else 0)
  else if Req_dec_T y (IZR (Int_part y)) then Ok (powerRZ x (Int_part y))
  else if Rlt_dec x 0 then Raise domain_error
  else Ok (Rpower x y).

(** [math.atan2(y, x)]: the angle of the point [(x, y)], above [-PI] and
    at most [PI].  The reals have one zero: the sign [math.atan2] reads off
    a zero argument is not represented here, see [Binary64.m_atan2]. *)
Definition Ratan2 (y x : R) : R :=
  if Rlt_dec 0 x then atan (y / x)
  else if Rlt_dec x 0 then
    (if Rle_dec 0 y then atan (y / x) + PI else atan (y / x) - PI)
  else if Rlt_dec 0 y then PI / 2
  else if Rlt_dec y 0 then - (PI / 2)
  else 0.

Definition Rradians (x : R) : R := x * (PI / 180).
Definition Rdegrees (x : R) : R := x * (180 / PI).

#[export] Instance R_float : PyFloat R := {
  of_int := IZR;
  add := Rplus;
  sub := Rminus;
  mul := Rmult;
  div := Rdiv;
  lt := Rlt_bool
}.

#[export] Instance R_math : PyMath R := {
  sqrt := Rsqrt;
  pow := Rpow;
  sin := fun x => Ok (Rtrigo_def.sin x);
  cos := fun x => Ok (Rtrigo_def.cos x);
  atan2 := Ratan2;
  radians := Rradians;
  degrees := Rdegrees
}.
End RealNum.

(** *** IEEE binary64 *)

Module Binary64.
(** An int literal as a double; exact for magnitudes below [2^53]. *)
Definition float_of_Z (z : Z) : float :=
  match z with
  | Z0 => PrimFloat.zero
  | Zpos _ => PrimFloat.of_uint63 (Uint63.of_Z z)
  | Zneg p => PrimFloat.opp (PrimFloat.of_uint63 (Uint63.of_Z (Zpos p)))
  end.

#[export] Instance binary64_float : PyFloat float := {
  of_int := float_of_Z;
  add := PrimFloat.add;
  sub := PrimFloat.sub;
  mul := PrimFloat.mul;
  div := PrimFloat.div;
  lt := PrimFloat.ltb
}.

(** **** CPython's [math] module over the platform's C library

    [math] wraps the C library: it decides the special cases itself,
    calls the library on the others, and turns a result that signals a
    domain or range error into an exception.  The library functions that
    are not IEEE operations are a parameter. *)
Record Libm : Type := {
  libm_pow : float -> float -> float;
  libm_sin : float -> float;
  libm_cos : float -> float;
  libm_atan2 : float -> float -> float        (* [atan2(y, x)] *)
}.

Local Open Scope float_scope.

(** [Py_MATH_PI] and the two factors of [math.radians], [math.degrees]. *)
Definition pi : float := 0x1.921fb54442d18p+1.
Definition degToRad : float := pi / 180.
Definition radToDeg : float := 180 / pi.

Definition copysign (magnitude sign : float) : float :=
  if get_sign sign then - abs magnitude else abs magnitude.

(** [math_1]: the wrapper of the one-argument functions.  A NaN from a
    non-NaN argument is a domain error, an infinity from a finite
    argument a range error, or a domain error for the functions that
    cannot overflow. *)
Definition math_1 (func : float -> float) (can_overflow : bool) (x : float)
    : Result float :=
  let r := func x in
  if is_nan r && negb (is_nan x) then Raise domain_error
  else if is_infinity r && is_finite x then
    Raise (if can_overflow then range_error else domain_error)
  else Ok r.

(** Whether a double is an odd integer, [fmod(fabs(y), 2.0) == 1.0]. *)
Definition is_odd_integer (y : float) : bool :=
  match FloatOps.Prim2SF y with
  | SpecFloat.S754_finite _ m e =>
      if (e =? 0)%Z then Z.odd (Zpos m)
      else if (e <? 0)%Z then
        ((Zpos m mod 2 ^ (- e) =? 0) && Z.odd (Zpos m / 2 ^ (- e)))%Z
      else false
  | _ => false
  end.

(** [math.pow(x, y)] *)
Definition math_pow (libm : Libm) (x y : float) : Result float :=
  if negb (is_finite x) || negb (is_finite y) then
    (* the IEEE specials are dealt with directly *)
    if is_nan x then Ok (if y =? 0 then 1 else x)          (* NaN**0 = 1 *)
    else if is_nan y then Ok (if x =? 1 then 1 else y)     (* 1**NaN = 1 *)
    else if is_infinity x then
      let odd_y := is_finite y && is_odd_integer y in
      if 0 <? y then Ok (if odd_y then x else abs x)
      else if y =? 0 then Ok 1
      else Ok (if odd_y then copysign 0 x else 0)
    else
      (* y is an infinity *)
      if abs x =? 1 then Ok 1
      else if (0 <? y) && (1 <? abs x) then Ok y
      else if (y <? 0) && (abs x <? 1) then Ok (- y)
      else Ok 0
  else
    (* let C handle it *)
    let r := libm_pow libm x y in
    if is_nan r then Raise domain_error
    else if is_infinity r then
      if x =? 0 then Raise domain_error else Raise range_error
    else Ok r.

(** [math.atan2(y, x)]: the zeros and the infinities are decided by sign
    before the library is asked, so that [atan2(0.0, -0.0)] is [pi]. *)
Definition m_atan2 (libm : Libm) (y x : float) : float :=
  if is_nan x || is_nan y then nan
  else if is_infinity y then
    if is_infinity x then
      if get_sign x then copysign (0.75 * pi) y else copysign (0.25 * pi) y
    else copysign (0.5 * pi) y
  else if is_infinity x || (y =? 0) then
    if get_sign x then copysign pi y else copysign 0 y
  else libm_atan2 libm y x.

Definition binary64_math (libm : Libm) : PyMath float := {|
  sqrt := math_1 PrimFloat.sqrt false;
  pow := math_pow libm;
  sin := math_1 (libm_sin libm) false;
  cos := math_1 (libm_cos libm) false;
  atan2 := m_atan2 libm;
  radians := fun x => x * degToRad;
  degrees := fun x => x * radToDeg
|}.

(** A C library given at the arguments the examples below use, with the
    values glibc returns there, and NaN elsewhere: the square at exponent
    2, the sine and the cosine at [0.0] and at [radians(90)], and the arc
    tangent of the displacement that the request (10, 0, 0) has at heading
    90. *)
Definition example_libm : Libm := {|
  libm_pow := fun x y => if y =? 2 then x * x else nan;
  libm_sin := fun x =>
    if x =? 0 then x
    else if x =? 0x1.921fb54442d18p+0 then 1
    else nan;
  libm_cos := fun x =>
    if x =? 0 then 1
    else if x =? 0x1.921fb54442d18p+0 then 0x1.1a62633145c07p-54
    else nan;
  libm_atan2 := fun y x =>
    if (y =? 10) && (x =? -0x1.60fafbfd97309p-51) then 0x1.921fb54442d19p+0
    else nan
|}.

(** Two doubles that are the same number: equal, or two zeros. *)
Definition same_number (x y : float) : Prop :=
  x = y \/ (PrimFloat.is_zero x = true /\ PrimFloat.is_zero y = true).
End Binary64.

(** ** The Link Handle's data ([mavsdk]) *)

Module mavsdk.
Section Types.
Variable num : Type.

Record PositionNed : Type := {
  north_m : num;
  east_m : num;
  down_m : num
}.

Record PositionNedYaw : Type := {
  sp_north_m : num;
  sp_east_m : num;
  sp_down_m : num;
  sp_yaw_deg : num
}.

Record VelocityBodyYawspeed : Type := {
  forward_m_s : num;
  right_m_s : num;
  down_m_s : num;
  yawspeed_deg_s : num
}.

Record Point : Type := {
  latitude_deg : num;
  longitude_deg : num
}.

Inductive FenceType : Type := INCLUSION | EXCLUSION.

Record Polygon : Type := {
  points : list Point;
  fence_type : FenceType
}.

(** A request issued through the Link Handle. *)
Inductive LinkCall : Type :=
| set_velocity_body (v : VelocityBodyYawspeed)
| set_position_ned (p : PositionNedYaw)
| upload_geofence (polygons : list Polygon).
End Types.

End mavsdk.
Import mavsdk.

(** The Telemetry Snapshot: the latest value of each topic the engine
    reads. *)
Record Telemetry (num : Type) : Type := {
  position_velocity_ned_position : PositionNed num;
  attitude_euler_yaw_deg : num;
  home : Point num
}.

(** ** Commands and effects *)

(** A callable handed to [put]: its qualified name, whether
    [asyncio.iscoroutinefunction] holds of it, and what calling it on its
    arguments raises, if anything.  Callables are opaque: they do not
    touch the session that dispatches them. *)
Record Callable : Type := {
  qualname : string;
  iscoroutinefunction : bool;
  call_raises : option PyException
}.

Inductive ThreadState : Type := unstarted | alive | finished.

(** The [mavsdk.System] behind [self._drone]. *)
Inductive System : Type := system_handle (port : Z).

(** What a user-supplied [teardown] override does, statement by statement:
    release a resource of its own ([self.cam.close()], [self.fp.close()]),
    call one of the session's action methods ([self.land()]), or enqueue a
    callable of its own with [self.put]. *)
Inductive HookStep : Type :=
| hook_release (resource : string)
| hook_action (name : string)
| hook_put (obj : Callable).

Section Session.
Variable num : Type.

Inductive PyValue : Type :=
| py_float (x : num)
| py_int (z : Z)
| py_bool (b : bool)
| py_str (s : string)
| py_tuple (bs : list bool).       (* a tuple of flags, [on_dimensions] *)

Definition Args : Type := list PyValue.
Definition Kwargs : Type := list (string * PyValue).

(** An entry of the Command Queue, the tuple [(com, args, kwargs)]; each
    component may be [None]. *)
Record Command : Type := {
  com : option Callable;
  args : option Args;
  kwargs : option Kwargs
}.

Inductive LogLine : Type :=
| user_called (obj : Callable)
| processing (obj : Callable) (a : Args) (k : Kwargs).

(** What the session does to the world outside its own fields. *)
Inductive Effect : Type :=
| log_info (line : LogLine)
| call (obj : Callable) (a : Args) (k : Kwargs)
| ensure_future (obj : Callable)
| print (e : PyException)
| loop_stop
| released (resource : string)
| system_del (d : System)
| thread_died (e : PyException)
| handler_closed (handler : string).

Record AbstractDrone : Type := {
  _stopped_mavlink : bool;
  _stopped_loop : bool;
  _time_slice : num;
  _min_follow_distance : num;
  _address : string;
  _drone : option System;          (* [None] once [del self._drone] ran *)
  _queue : list Command;
  _mavlink_thread : ThreadState;
  _loop_thread : ThreadState;
  _logger_handlers : list string;
  telemetry : Telemetry num;
  teardown : list HookStep         (* the subclass's override *)
}.

Definition set_queue (q : list Command) (self : AbstractDrone) :=
  {| _stopped_mavlink := _stopped_mavlink self;
     _stopped_loop := _stopped_loop self;
     _time_slice := _time_slice self;
     _min_follow_distance := _min_follow_distance self;
     _address := _address self;
     _drone := _drone self;
     _queue := q;
     _mavlink_thread := _mavlink_thread self;
     _loop_thread := _loop_thread self;
     _logger_handlers := _logger_handlers self;
     telemetry := telemetry self;
     teardown := teardown self |}.

Definition set_stopped_mavlink (b : bool) (self : AbstractDrone) :=
  {| _stopped_mavlink := b;
     _stopped_loop := _stopped_loop self;
     _time_slice := _time_slice self;
     _min_follow_distance := _min_follow_distance self;
     _address := _address self;
     _drone := _drone self;
     _queue := _queue self;
     _mavlink_thread := _mavlink_thread self;
     _loop_thread := _loop_thread self;
     _logger_handlers := _logger_handlers self;
     telemetry := telemetry self;
     teardown := teardown self |}.

Definition set_stopped_loop (b : bool) (self : AbstractDrone) :=
  {| _stopped_mavlink := _stopped_mavlink self;
     _stopped_loop := b;
     _time_slice := _time_slice self;
     _min_follow_distance := _min_follow_distance self;
     _address := _address self;
     _drone := _drone self;
     _queue := _queue self;
     _mavlink_thread := _mavlink_thread self;
     _loop_thread := _loop_thread self;
     _logger_handlers := _logger_handlers self;
     telemetry := telemetry self;
     teardown := teardown self |}.

Definition set_drone (d : option System) (self : AbstractDrone) :=
  {| _stopped_mavlink := _stopped_mavlink self;
     _stopped_loop := _stopped_loop self;
     _time_slice := _time_slice self;
     _min_follow_distance := _min_follow_distance self;
     _address := _address self;
     _drone := d;
     _queue := _queue self;
     _mavlink_thread := _mavlink_thread self;
     _loop_thread := _loop_thread self;
     _logger_handlers := _logger_handlers self;
     telemetry := telemetry self;
     teardown := teardown self |}.

Definition set_mavlink_thread (t : ThreadState) (self : AbstractDrone) :=
  {| _stopped_mavlink := _stopped_mavlink self;
     _stopped_loop := _stopped_loop self;
     _time_slice := _time_slice self;
     _min_follow_distance := _min_follow_distance self;
     _address := _address self;
     _drone := _drone self;
     _queue := _queue self;
     _mavlink_thread := t;
     _loop_thread := _loop_thread self;
     _logger_handlers := _logger_handlers self;
     telemetry := telemetry self;
     teardown := teardown self |}.

Definition set_loop_thread (t : ThreadState) (self : AbstractDrone) :=
  {| _stopped_mavlink := _stopped_mavlink self;
     _stopped_loop := _stopped_loop self;
     _time_slice := _time_slice self;
     _min_follow_distance := _min_follow_distance self;
     _address := _address self;
     _drone := _drone self;
     _queue := _queue self;
     _mavlink_thread := _mavlink_thread self;
     _loop_thread := t;
     _logger_handlers := _logger_handlers self;
     telemetry := telemetry self;
     teardown := teardown self |}.

Definition set_logger_handlers (h : list string) (self : AbstractDrone) :=
  {| _stopped_mavlink := _stopped_mavlink self;
     _stopped_loop := _stopped_loop self;
     _time_slice := _time_slice self;
     _min_follow_distance := _min_follow_distance self;
     _address := _address self;
     _drone := _drone self;
     _queue := _queue self;
     _mavlink_thread := _mavlink_thread self;
     _loop_thread := _loop_thread self;
     _logger_handlers := h;
     telemetry := telemetry self;
     teardown := teardown self |}.
End Session.

Arguments py_float {num}.
Arguments py_int {num}.
Arguments py_bool {num}.
Arguments py_str {num}.
Arguments py_tuple {num}.
Arguments user_called {num}.
Arguments processing {num}.
Arguments log_info {num}.
Arguments call {num}.
Arguments loop_stop {num}.
Arguments print {num}.
Arguments ensure_future {num}.
Arguments released {num}.
Arguments system_del {num}.
Arguments thread_died {num}.
Arguments handler_closed {num}.

(** ** Maneuver Engine *)

Section ManeuverEngine.
Context {num : Type} {F : PyFloat num} {M : PyMath num}.
Local Open Scope py_scope.

Definition on_dimensions_t : Type := (bool * bool * bool)%type.
Definition dim0 (d : on_dimensions_t) : bool := fst (fst d).
Definition dim1 (d : on_dimensions_t) : bool := snd (fst d).
Definition dim2 (d : on_dimensions_t) : bool := snd d.

(** The calls to [math] are made in the order Python evaluates them; the
    first one that raises ends the coroutine, and nothing is issued. *)
Definition _maneuver_with_ned (self : AbstractDrone num)
    (front right down : num) (on_dimensions : on_dimensions_t)
    : Result (LinkCall num) :=
  (* zero out dimensions that will not be moved *)
  let front := if negb (dim0 on_dimensions) then of_int 0
               else of_int (-1) * front in
  let right := if negb (dim1 on_dimensions) then of_int 0
               else of_int (-1) * right in
  let down := if negb (dim2 on_dimensions) then of_int 0 else down in
  (* get current position *)
  let current_pos := position_velocity_ned_position (telemetry self) in
  (* get angle of rotation *)
  let angle := attitude_euler_yaw_deg (telemetry self) in
  let angle_of_rotation := radians angle in
  (* convert FRD to NED *)
  sin_north <- sin angle_of_rotation ;;
  cos_north <- cos angle_of_rotation ;;
  let relative_north := right * sin_north + front * cos_north in
  cos_east <- cos angle_of_rotation ;;
  sin_east <- sin angle_of_rotation ;;
  let relative_east := right * cos_east - front * sin_east in
  (* get angle of yaw *)
  let yaw := degrees (atan2 relative_east relative_north) in
  (* add offset to current position *)
  let north := relative_north + north_m current_pos in
  let east := relative_east + east_m current_pos in
  let down := down + down_m current_pos in
  Ok (set_position_ned
        {| sp_north_m := north; sp_east_m := east;
           sp_down_m := down; sp_yaw_deg := yaw |}).

Definition _maneuver_to (self : AbstractDrone num) (front right down : num)
    (on_dimensions : on_dimensions_t) (test_min : bool)
    : Result (LinkCall num) :=
  if test_min then
    front2 <- pow front (of_int 2) ;;
    right2 <- pow right (of_int 2) ;;
    down2 <- pow down (of_int 2) ;;
    totalDistance <- sqrt (front2 + right2 + down2) ;;
    if totalDistance <? _min_follow_distance self then
      Ok (set_velocity_body
            {| forward_m_s := of_int 0; right_m_s := of_int 0;
               down_m_s := of_int 0; yawspeed_deg_s := of_int 0 |})
    else _maneuver_with_ned self front right down on_dimensions
  else _maneuver_with_ned self front right down on_dimensions.
End ManeuverEngine.

Section Geofence.
Context {num : Type} `{PyFloat num}.
Local Open Scope py_scope.

Definition _create_geofence (tel : Telemetry num) (distance : num)
    : LinkCall num :=
  let latitude := latitude_deg (home tel) in
  let longitude := longitude_deg (home tel) in
  let offset := distance * (of_int 1 / of_int 111111) in
  (* the geofence boundary *)
  let p1 := {| latitude_deg := latitude - offset;
               longitude_deg := longitude - offset |} in
  let p2 := {| latitude_deg := latitude + offset;
               longitude_deg := longitude - offset |} in
  let p3 := {| latitude_deg := latitude + offset;
               longitude_deg := longitude + offset |} in
  let p4 := {| latitude_deg := latitude - offset;
               longitude_deg := longitude + offset |} in
  let polygon := {| points := [p1; p2; p3; p4];
                    fence_type := INCLUSION |} in
  upload_geofence [polygon].
End Geofence.

(** ** Command Queue and Command Worker *)

Definition empty_deque_message : string := "pop from an empty deque".

Section Worker.
Context {num : Type} `{PyFloat num}.
Local Open Scope py_scope.

Definition Drone : Type := AbstractDrone num.
Definition Effects : Type := list (Effect num).

(** [self._drone.__del__(); del self._drone] *)
Definition _cleanup (self : Drone) : Result (Drone * Effects) :=
  match _drone self with
  | Some d => Ok (set_drone None self, [system_del d])
  | None => Raise (AttributeError "_drone")
  end.

Definition _process_command (self : Drone) (f : option Callable)
    (a : Args num) (k : Kwargs num) : Effects * option PyException :=
  match f with
  | Some f =>
      let logged := log_info (processing f a k) in
      match call_raises f with
      | Some e => ([logged; call f a k], Some e)
      | None =>
          if iscoroutinefunction f      (* an async function *)
          then ([logged; call f a k; ensure_future f], None)
          else ([logged; call f a k], None)
      end
  | None => ([], None)
  end.

(** [self._queue.popleft()] *)
Definition popleft (q : list (Command num))
    : Result (Command num * list (Command num)) :=
  match q with
  | c :: rest => Ok (c, rest)
  | [] => Raise (IndexError empty_deque_message)
  end.

Record Iteration : Type := {
  after : Drone;
  effects : Effects;
  uncaught : option PyException
}.

(** The [try] block of one pass of the loop with its [except] clauses. *)
Definition iteration_try (self : Drone) : Iteration :=
  let '(self', done, raised) :=
    match popleft (_queue self) with
    | Ok (c, rest) =>
        let a := match args c with Some a => a | None => [] end in
        let k := match kwargs c with Some k => k | None => [] end in
        let '(eff, exn) := _process_command self (com c) a k in
        (set_queue rest self, eff, exn)
    | Raise e => (self, [], Some e)
    end in
  match raised with
  | None => {| after := self'; effects := done; uncaught := None |}
  | Some (IndexError msg) =>
      (* expected when the deque has no elements *)
      if negb (String.eqb msg empty_deque_message)
      then {| after := self'; effects := done ++ [print (IndexError msg)];
              uncaught := None |}
      else {| after := self'; effects := done; uncaught := None |}
  | Some (ActionError msg) =>
      {| after := self'; effects := done ++ [print (ActionError msg)];
         uncaught := None |}
  | Some (OffboardError msg) =>
      {| after := self'; effects := done ++ [print (OffboardError msg)];
         uncaught := None |}
  | Some e => {| after := self'; effects := done; uncaught := Some e |}
  end.

(** The [finally] block: [end_time] is the time the pass took, as
    measured by the two [perf_counter] readings; the result is the
    argument of [sleep], when [sleep] is called. *)
Definition iteration_finally (self : Drone) (end_time : num) : option num :=
  if end_time <? _time_slice self
  then Some (_time_slice self - end_time)
  else None.

(** One pass of the body of [while not self._stopped_mavlink]. *)
Definition iteration (end_time : num) (self : Drone)
    : Iteration * option num :=
  let r := iteration_try self in
  (r, iteration_finally (after r) end_time).

(** The thread leaves [_process_command_loop]: the outer [finally] runs
    [_cleanup], and the thread is over. *)
Definition worker_exit (self : Drone) (because : option PyException)
    : Drone * Effects :=
  let '(self, eff) :=
    match _cleanup self with
    | Ok (s, e) => (s, e)
    | Raise e => (self, [thread_died e])
    end in
  (set_mavlink_thread finished self,
   eff ++ match because with Some e => [thread_died e] | None => [] end).

(** One scheduling of the worker thread: test of the loop condition, then
    either one pass or the exit. *)
Definition worker_pass (self : Drone) : Drone * Effects :=
  match _mavlink_thread self with
  | alive =>
      if _stopped_mavlink self then worker_exit self None
      else
        let r := iteration_try self in
        match uncaught r with
        | None => (after r, effects r)
        | Some e =>
            let '(s, eff) := worker_exit (after r) (Some e) in
            (s, effects r ++ eff)
        end
  | _ => (self, [])
  end.

(** The [sleep] that ends the pass that starts in [self], when that pass
    takes [end_time]. *)
Definition pass_sleep (end_time : num) (self : Drone) : option num :=
  match _mavlink_thread self with
  | alive =>
      if _stopped_mavlink self then None
      else snd (iteration end_time self)
  | _ => None
  end.

(** [_process_command_loop], run for as many passes as there are time
    readings: the session and the effects it ends with, and the sleep at
    the end of each pass. *)
Fixpoint _process_command_loop (clock : list num) (self : Drone)
    : Drone * Effects * list (option num) :=
  match clock with
  | [] => (self, [], [])
  | end_time :: clock' =>
      let '(s, e) := worker_pass self in
      let '(s', e', sleeps) := _process_command_loop clock' s in
      (s', e ++ e', pass_sleep end_time self :: sleeps)
  end.

(** *** The public command surface *)

Definition put (self : Drone) (obj : Callable) (a : Args num)
    (k : Kwargs num) : Drone * Effects :=
  (set_queue (_queue self ++
              [{| com := Some obj; args := Some a; kwargs := Some k |}])
     self,
   [log_info (user_called obj)]).

(** [self._drone.action.<name>]: a coroutine method of the Link Handle. *)
Definition drone_action (self : Drone) (name : string) : Result Callable :=
  match _drone self with
  | Some _ => Ok {| qualname := "Action." ++ name;
                    iscoroutinefunction := true;
                    call_raises := None |}
  | None => Raise (AttributeError "_drone")
  end.

Definition enqueue_action (self : Drone) (name : string)
    : Result (Drone * Effects) :=
  match drone_action self name with
  | Ok f => Ok (put self f [] [])
  | Raise e => Raise e
  end.

Definition arm (self : Drone) := enqueue_action self "arm".
Definition disarm (self : Drone) := enqueue_action self "disarm".
Definition takeoff (self : Drone) := enqueue_action self "takeoff".

(** *** Interleavings of callers and the worker *)

Inductive Tick : Type :=
| tick_put (obj : Callable) (a : Args num) (k : Kwargs num)
| tick_worker.

Definition tick (t : Tick) (self : Drone) : Drone * Effects :=
  match t with
  | tick_put obj a k => put self obj a k
  | tick_worker => worker_pass self
  end.

Fixpoint run (schedule : list Tick) (self : Drone) : Drone * Effects :=
  match schedule with
  | [] => (self, [])
  | t :: schedule' =>
      let '(s, e) := tick t self in
      let '(s', e') := run schedule' s in
      (s', e ++ e')
  end.

(** What a recording fake operation sees. *)
Definition Call : Type := (Callable * Args num * Kwargs num)%type.

Fixpoint calls (eff : Effects) : list Call :=
  match eff with
  | [] => []
  | call f a k :: eff' => (f, a, k) :: calls eff'
  | _ :: eff' => calls eff'
  end.


(** The calls the queue still owes. *)
Fixpoint pending (q : list (Command num)) : list Call :=
  match q with
  | [] => []
  | c :: q' =>
      match com c with
      | Some f =>
          (f, match args c with Some a => a | None => [] end,
              match kwargs c with Some k => k | None => [] end)
            :: pending q'
      | None => pending q'
      end
  end.

(** *** Lifecycle: [stop] *)

Inductive StopOutcome : Type :=
| Returned (self : Drone) (eff : Effects)
| Raised (e : PyException) (self : Drone) (eff : Effects)
| SpinsForever (self : Drone) (eff : Effects).

Definition run_hook_step (self : Drone) (st : HookStep)
    : Result (Drone * Effects) :=
  match st with
  | hook_release r => Ok (self, [released r])
  | hook_action name => enqueue_action self name
  | hook_put obj => Ok (put self obj [] [])
  end.

Fixpoint run_hook (steps : list HookStep) (self : Drone)
    : Drone * Effects * option PyException :=
  match steps with
  | [] => (self, [], None)
  | st :: steps' =>
      match run_hook_step self st with
      | Raise e => (self, [], Some e)
      | Ok (s, e) =>
          let '(s', e', exn) := run_hook steps' s in
          (s', e ++ e', exn)
      end
  end.

(** The worker's share of [while len(self._queue) > 0: sleep(...)]: it is
    scheduled until the queue is empty or the thread is over. *)
Fixpoint drain (fuel : nat) (self : Drone) : Drone * Effects :=
  match fuel with
  | O => (self, [])
  | S fuel' =>
      match _queue self, _mavlink_thread self with
      | _ :: _, alive =>
          let '(s, e) := worker_pass self in
          let '(s', e') := drain fuel' s in
          (s', e ++ e')
      | _, _ => (self, [])
      end
  end.

(** [_close_logger] *)
Definition _close_logger (self : Drone) : Drone * Effects :=
  (set_logger_handlers [] self,
   map handler_closed (_logger_handlers self)).

(** [stop].  The worker is scheduled where [stop] waits for it (the spin
    wait and the join), and the user loop, if it runs, ends at its join
    without enqueuing anything further. *)
Definition stop (self : Drone) : StopOutcome :=
  (* on a stop call put a disarm call in the empty queue *)
  let self := set_queue [] self in
  match
    match disarm self with
    | Ok (s, e) => Ok (s, e)
    | Raise (AttributeError _) => Ok (self, [])  (* _cleanup already ran *)
    | Raise e => Raise e
    end
  with
  | Raise e => Raised e self []
  | Ok (self, e1) =>
      (* self._loop.stop() *)
      let e2 := [loop_stop] in
      (* stop execution of the loop *)
      let self := set_stopped_loop true self in
      let self :=
        match _loop_thread self with
        | unstarted => self               (* RuntimeError, caught *)
        | _ => set_loop_thread finished self
        end in
      (* run teardown *)
      match run_hook (teardown self) self with
      | (self, e3, Some e) => Raised e self (e1 ++ e2 ++ e3)
      | (self, e3, None) =>
          (* spin wait for the commands teardown enqueued *)
          let '(self, e4) := drain (List.length (_queue self)) self in
          match _queue self with
          | _ :: _ => SpinsForever self (e1 ++ e2 ++ e3 ++ e4)
          | [] =>
              (* finally join the mavlink thread and stop it *)
              let self := set_stopped_mavlink true self in
              match _mavlink_thread self with
              | unstarted =>
                  Raised
                    (RuntimeError "cannot join thread before it is started")
                    self (e1 ++ e2 ++ e3 ++ e4)
              | _ =>
                  let '(self, e5) := worker_pass self in
                  (* close logging *)
                  let '(self, e6) := _close_logger self in
                  Returned self (e1 ++ e2 ++ e3 ++ e4 ++ e5 ++ e6)
              end
          end
      end
  end.
End Worker.

(** ** Plugins and their task caches *)

(** [deque(maxlen=...).append]: the item goes to the right end, and the
    left end is dropped when the bound is exceeded. *)
Definition deque_append {A : Type} (maxlen : nat) (q : list A) (x : A)
    : list A :=
  let q' := q ++ [x] in
  if (maxlen <? List.length q')%nat then tl q' else q'.

Inductive TaskValue : Type :=
| value_none
| value_bool (b : bool)
| value_other (repr : string).

Section Plugin.
Variable request : Type.       (* what a coroutine asks of the Link Handle *)

(** An [asyncio.Task]: the coroutine it wraps and what [task.result()]
    gives once it is done. *)
Record Task : Type := {
  get_coro : request;
  result : Result TaskValue
}.

Record AbstractPlugin : Type := {
  _task_cache : list Task;
  _result_cache : list TaskValue
}.

Definition plugin_init : AbstractPlugin :=
  {| _task_cache := []; _result_cache := [] |}.

(** The done-callback [submit_task] registers; [task.result()] re-raises
    what the task raised, and then nothing is cached. *)
Definition _task_callback (self : AbstractPlugin) (task : Task)
    : AbstractPlugin :=
  match result task with
  | Ok v =>
      {| _task_cache := _task_cache self;
         _result_cache := deque_append 10 (_result_cache self) v |}
  | Raise _ => self
  end.

Definition submit_task (self : AbstractPlugin) (new_task : Task)
    : AbstractPlugin * Task :=
  ({| _task_cache := deque_append 10 (_task_cache self) new_task;
      _result_cache := _result_cache self |},
   new_task).

Inductive PluginEvent : Type :=
| submitted (t : Task)
| completed (t : Task).

Definition plugin_step (self : AbstractPlugin) (ev : PluginEvent)
    : AbstractPlugin :=
  match ev with
  | submitted t => fst (submit_task self t)
  | completed t => _task_callback self t
  end.

Definition plugin_run (evs : list PluginEvent) (self : AbstractPlugin)
    : AbstractPlugin :=
  fold_left plugin_step evs self.

Definition within_capacity (p : AbstractPlugin) : Prop :=
  (List.length (_task_cache p) <= 10)%nat
  /\ (List.length (_result_cache p) <= 10)%nat.
End Plugin.

(** The [n]-th of a series of tasks that complete normally. *)
Definition numbered (n : nat) : Task nat :=
  {| get_coro := n; result := Ok (value_other "done") |}.

(** ** The offboard plugin *)

Module OffboardPlugin.
Section WithController.
Context {num : Type} `{PyFloat num}.

Inductive Request : Type :=
| request_is_active
| request_set_attitude (roll pitch yaw thrust : num)
| request_set_velocity_body (v : VelocityBodyYawspeed num)
| request_set_position_ned (p : PositionNedYaw num)
| request_start
| request_stop.

(** How the flight controller answers each request, sooner or later. *)
Variable controller : Request -> Result TaskValue.

(** [asyncio.ensure_future(coro, loop=self._loop)] *)
Definition future (r : Request) : Task Request :=
  {| get_coro := r; result := controller r |}.

Record Offboard : Type := {
  plugin : AbstractPlugin Request;
  _is_active : bool;
  _is_active_task : option (Task Request)
}.

Definition init : Offboard :=
  {| plugin := plugin_init Request;
     _is_active := false;
     _is_active_task := Some (future request_is_active) |}.

(** The Link Handle's [is_active] resolves to a [bool]; a task that
    raised leaves the flag and the task where they are. *)
Definition _is_active_callback (self : Offboard) (task : Task Request)
    : Offboard :=
  match result task with
  | Ok (value_bool b) =>
      {| plugin := plugin self; _is_active := b; _is_active_task := None |}
  | _ => self
  end.

Definition is_active (self : Offboard) : bool := _is_active self.

(** [super().submit_task(asyncio.ensure_future(...))] *)
Definition submit (self : Offboard) (r : Request) : Offboard :=
  {| plugin := fst (submit_task (plugin self) (future r));
     _is_active := _is_active self;
     _is_active_task := _is_active_task self |}.

Definition set_is_active (b : bool) (self : Offboard) : Offboard :=
  {| plugin := plugin self;
     _is_active := b;
     _is_active_task := _is_active_task self |}.

Definition set_attitude (self : Offboard) (roll pitch yaw thrust : num)
    : Offboard :=
  submit self (request_set_attitude roll pitch yaw thrust).

Definition set_velocity_body (self : Offboard)
    (vel_body : VelocityBodyYawspeed num) : Offboard :=
  submit self (request_set_velocity_body vel_body).

Definition set_position_ned (self : Offboard)
    (pos_ned : PositionNedYaw num) : Offboard :=
  submit self (request_set_position_ned pos_ned).

(** The names bound in the module [offboard.py] when a method runs: what
    it imports, and its class.  [Attitude], [VelocityBodyYawspeed] and
    [Task] are not among them; the annotation [task: Task] of
    [_is_active_callback] is taken as not evaluated. *)
Definition module_globals : list string :=
  [ "asyncio"; "AbstractEventLoop"; "Logger"; "sleep"; "Callable";
    "partial"; "System"; "offboard"; "AbstractPlugin"; "Offboard" ]%string.

(** Evaluating a global name the module does not bind (none of those
    below is a builtin). *)
Definition global_name (name : string) : Result unit :=
  if existsb (String.eqb name) module_globals then Ok tt
  else Raise (NameError ("name '" ++ name ++ "' is not defined")).

(** [hold] and [start]: the session after the call, and whether the call
    returned.  What a method wrote before it raised stays written. *)
Definition hold (self : Offboard) : Offboard * Result unit :=
  match global_name "VelocityBodyYawspeed" with
  | Raise e => (self, Raise e)
  | Ok _ =>
      (set_velocity_body self
         {| forward_m_s := of_int 0; right_m_s := of_int 0;
            down_m_s := of_int 0; yawspeed_deg_s := of_int 0 |},
       Ok tt)
  end.

Definition start (self : Offboard) : Offboard * Result unit :=
  let self := set_is_active true self in
  match global_name "Attitude" with
  | Raise e => (self, Raise e)
  | Ok _ =>
      let self :=
        submit self
          (request_set_attitude (of_int 0) (of_int 0) (of_int 0)
             (of_int 0)) in
      match hold self with
      | (self, Raise e) => (self, Raise e)
      | (self, Ok _) => (submit self request_start, Ok tt)
      end
  end.

Definition stop (self : Offboard) : Offboard :=
  let self := set_is_active false self in
  submit self request_stop.

(** The event loop completes every task of the Pending-Task Cache and
    runs its done-callback. *)
Definition complete_pending (self : Offboard) : Offboard :=
  {| plugin := fold_left (@_task_callback Request)
                 (_task_cache (plugin self)) (plugin self);
     _is_active := _is_active self;
     _is_active_task := _is_active_task self |}.
End WithController.

(** A flight controller that rejects every request. *)
Definition rejecting {num : Type} (r : @Request num) : Result TaskValue :=
  Raise (OffboardError "denied").
End OffboardPlugin.

(** ** Concrete sessions *)

Section Sessions.
Context {num : Type} `{PyFloat num}.
Local Open Scope py_scope.

Definition telemetry_at (north east down heading : num)
    (home_latitude home_longitude : num) : Telemetry num :=
  {| position_velocity_ned_position :=
       {| north_m := north; east_m := east; down_m := down |};
     attitude_euler_yaw_deg := heading;
     home := {| latitude_deg := home_latitude;
                longitude_deg := home_longitude |} |}.

(** The session as [__init__] leaves it: connected, worker started, user
    loop not started, two logging handlers. *)
Definition session_init (address : string) (time_slice min_follow_distance
    : num) (tel : Telemetry num) (hook : list HookStep)
    : AbstractDrone num :=
  {| _stopped_mavlink := false;
     _stopped_loop := false;
     _time_slice := time_slice;
     _min_follow_distance := min_follow_distance;
     _address := address;
     _drone := Some (system_handle 1000);
     _queue := [];
     _mavlink_thread := alive;
     _loop_thread := unstarted;
     _logger_handlers := ["mavlog.log"; "stdout"]%string;
     telemetry := tel;
     teardown := hook |}.

Definition origin : Telemetry num :=
  telemetry_at (of_int 0) (of_int 0) (of_int 0) (of_int 0)
    (of_int 0) (of_int 0).

(** [CSM_Gazebo()]: its [teardown] is [self.fp.close()]. *)
Definition CSM_Gazebo : AbstractDrone num :=
  session_init "udp://:14540" (of_int 1 / of_int 20) (of_int 5) origin
    [hook_release "fp"].

(** [CSM_Hexsoon()]: its [teardown] closes the camera, then [self.fp]. *)
Definition CSM_Hexsoon : AbstractDrone num :=
  session_init "serial:///dev/ttyACM0" (of_int 1 / of_int 20) (of_int 5)
    origin [hook_release "cam"; hook_release "fp"].

(** A subclass whose [teardown] lands the vehicle with [self.land()]. *)
Definition landing_drone : AbstractDrone num :=
  session_init "udp://:14540" (of_int 1 / of_int 20) (of_int 5) origin
    [hook_action "land"].

(** A drone at the origin of the NED frame with the given heading. *)
Definition drone_heading (heading min_follow_distance : num)
    : AbstractDrone num :=
  session_init "udp://:14540" (of_int 1 / of_int 20) min_follow_distance
    (telemetry_at (of_int 0) (of_int 0) (of_int 0) heading
       (of_int 0) (of_int 0))
    [].

(** A drone whose home position is the given point. *)
Definition drone_home (latitude longitude : num) : Telemetry num :=
  telemetry_at (of_int 0) (of_int 0) (of_int 0) (of_int 0)
    latitude longitude.

Definition all_axes : on_dimensions_t := (true, true, true).

Definition sync_op (name : string) : Callable :=
  {| qualname := name; iscoroutinefunction := false; call_raises := None |}.

Definition async_op (name : string) : Callable :=
  {| qualname := name; iscoroutinefunction := true; call_raises := None |}.

Definition failing_op (name : string) (e : PyException) : Callable :=
  {| qualname := name; iscoroutinefunction := false;
     call_raises := Some e |}.
(** The zero-velocity hold, [VelocityBodyYawspeed(0, 0, 0, 0)]. *)
Definition hold_command : LinkCall num :=
  set_velocity_body
    {| forward_m_s := of_int 0; right_m_s := of_int 0;
       down_m_s := of_int 0; yawspeed_deg_s := of_int 0 |}.

(** The upload of one inclusive four-corner polygon. *)
Definition square (sw se ne nw : num * num) : LinkCall num :=
  let corner := fun c : num * num =>
    {| latitude_deg := fst c; longitude_deg := snd c |} in
  upload_geofence
    [{| points := [corner sw; corner se; corner ne; corner nw];
        fence_type := INCLUSION |}].

(** A callable whose call the worker survives: it returns, or raises one
    of the exceptions the loop catches. *)
Definition survivable (f : Callable) : bool :=
  match call_raises f with
  | None => true
  | Some (IndexError _) | Some (ActionError _) | Some (OffboardError _) =>
      true
  | Some _ => false
  end.

Definition survivable_command (c : Command num) : bool :=
  match com c with
  | Some f => survivable f
  | None => true
  end.

(** An interleaving of callers and worker: two commands, a pass, a
    command the flight controller rejects, a pass. *)
Definition example_schedule : list (@Tick num) :=
  [ tick_put (async_op "Action.arm") [] [];
    tick_put (sync_op "report") [py_int 1] [];
    tick_worker;
    tick_put (failing_op "Action.takeoff" (ActionError "denied")) [] [];
    tick_worker ].

(** The fields neither the worker nor a hook writes. *)
Definition same_frame (s s' : AbstractDrone num) : Prop :=
  _stopped_loop s' = _stopped_loop s
  /\ _stopped_mavlink s' = _stopped_mavlink s
  /\ _loop_thread s' = _loop_thread s
  /\ _logger_handlers s' = _logger_handlers s
  /\ teardown s' = teardown s.

(** Someone still answers for the Link Handle: it is released already,
    or the worker that will release it is alive, or commands are queued
    that nobody will consume. *)
Definition accounted (s : AbstractDrone num) : Prop :=
  _drone s = None \/ _mavlink_thread s = alive \/ _queue s <> [].

(** The session a completed [stop] leaves behind. *)
Record stopped (hook : list HookStep) (s : AbstractDrone num) : Prop := {
  stopped_queue : _queue s = [];
  stopped_drone : _drone s = None;
  stopped_worker : _mavlink_thread s = finished;
  stopped_loop_flag : _stopped_loop s = true;
  stopped_mavlink_flag : _stopped_mavlink s = true;
  stopped_loop_thread : _loop_thread s <> alive;
  stopped_handlers : _logger_handlers s = [];
  stopped_hook : teardown s = hook
}.

Definition is_release (st : HookStep) : bool :=
  match st with
  | hook_release _ => true
  | _ => false
  end.

Fixpoint released_by (steps : list HookStep) : list (Effect num) :=
  match steps with
  | [] => []
  | hook_release r :: steps' => released r :: released_by steps'
  | _ :: steps' => released_by steps'
  end.
End Sessions.

(** ** More of the session: connection, public maneuver surface *)

(** What leaves a [try] block: [KeyboardInterrupt] is not an [Exception]. *)
Inductive Signal : Type :=
| KeyboardInterrupt
| Exception (e : PyException).

Section Connection.
Context {num : Type}.

(** [_async_connect]'s loop over the connection-state stream, each state
    given by its [is_connected]: whether "Drone connection established" was
    logged, and the states left unread. *)
Fixpoint await_connected (states : list bool) : bool * list bool :=
  match states with
  | [] => (false, [])
  | is_connected :: states' =>
      if is_connected then (true, states')    (* log, then break *)
      else await_connected states'
  end.

(** [_async_connect]: the stream is reached through [self._drone]. *)
Definition _async_connect (self : AbstractDrone num) (states : list bool)
    : Result (bool * list bool) :=
  match _drone self with
  | Some _ => Ok (await_connected states)
  | None => Raise (AttributeError "_drone")
  end.

Record Connected : Type := {
  session : AbstractDrone num;
  connect_effects : list (Effect num);
  established : bool;
  unread : list bool;
  propagated : option Signal
}.

(** [_connect]: [connect_raises] is what awaiting [self._drone.connect]
    raises, if anything. *)
Definition _connect (connect_raises : option Signal) (states : list bool)
    (self : AbstractDrone num) : Connected :=
  (* try / except KeyboardInterrupt *)
  let '(self, eff, pending_signal) :=
    match connect_raises with
    | None => (self, [], None)
    | Some KeyboardInterrupt =>
        match _cleanup self with
        | Ok (s, e) => (s, e, Some KeyboardInterrupt)
        | Raise e => (self, [], Some (Exception e))
        end
    | Some (Exception e) => (self, [], Some (Exception e))
    end in
  (* finally *)
  match _async_connect self states with
  | Ok (logged, rest) =>
      {| session := self; connect_effects := eff; established := logged;
         unread := rest; propagated := pending_signal |}
  | Raise e =>
      {| session := self; connect_effects := eff; established := false;
         unread := states; propagated := Some (Exception e) |}
  end.
End Connection.

Section PublicManeuvers.
Context {num : Type} `{PyMath num}.

(** The Telemetry Worker overwrites the snapshot. *)
Definition set_telemetry (t : Telemetry num) (self : AbstractDrone num) :=
  {| _stopped_mavlink := _stopped_mavlink self;
     _stopped_loop := _stopped_loop self;
     _time_slice := _time_slice self;
     _min_follow_distance := _min_follow_distance self;
     _address := _address self;
     _drone := _drone self;
     _queue := _queue self;
     _mavlink_thread := _mavlink_thread self;
     _loop_thread := _loop_thread self;
     _logger_handlers := _logger_handlers self;
     telemetry := t;
     teardown := teardown self |}.

(** The bound coroutine methods [self._maneuver_to] and
    [self._create_geofence]. *)
Definition maneuver_to_method : Callable :=
  {| qualname := "AbstractDrone._maneuver_to";
     iscoroutinefunction := true; call_raises := None |}.

Definition create_geofence_method : Callable :=
  {| qualname := "AbstractDrone._create_geofence";
     iscoroutinefunction := true; call_raises := None |}.

Definition maneuver_to (self : AbstractDrone num) (front right down : num)
    (on_dimensions : on_dimensions_t) (test_min : bool)
    : AbstractDrone num * list (Effect num) :=
  put self maneuver_to_method
    [ py_float front; py_float right; py_float down;
      py_tuple [dim0 on_dimensions; dim1 on_dimensions; dim2 on_dimensions];
      py_bool test_min ]
    [].

Definition create_geofence (self : AbstractDrone num) (distance : num)
    : AbstractDrone num * list (Effect num) :=
  put self create_geofence_method [py_float distance] [].

(** The event loop runs a scheduled coroutine of the session: the
    positional arguments are bound to the parameters, and the body runs on
    the session as it is then, to the request it issues or the exception
    that ends it.  Other callables are the Link Handle's own and answer
    [None] here. *)
Definition perform (self : AbstractDrone num)
    (c : Callable * Args num * Kwargs num) : option (Result (LinkCall num)) :=
  let '(f, a, k) := c in
  if String.eqb (qualname f) (qualname maneuver_to_method) then
    match a, k with
    | [ py_float x_front; py_float x_right; py_float x_down;
        py_tuple [d0; d1; d2]; py_bool test_min ], [] =>
        Some (_maneuver_to self x_front x_right x_down (d0, d1, d2) test_min)
    | _, _ => None
    end
  else if String.eqb (qualname f) (qualname create_geofence_method) then
    match a, k with
    | [ py_float distance ], [] =>
        Some (Ok (_create_geofence (telemetry self) distance))
    | _, _ => None
    end
  else None.

(** A masked axis requests no movement. *)
Definition mask (enabled : bool) (x : num) : num :=
  if enabled then x else of_int 0.
End PublicManeuvers.

(** ** Vocabulary for the worker's traces *)

Section Traces.
Context {num : Type}.

Fixpoint printed (eff : list (Effect num)) : list PyException :=
  match eff with
  | [] => []
  | print e :: eff' => e :: printed eff'
  | _ :: eff' => printed eff'
  end.

(** What the loop's [except] clauses print for a command: the error its
    call raises when that is an [ActionError], an [OffboardError], or an
    [IndexError] whose message is not the empty-deque one. *)
Definition complaint (c : Command num) : list PyException :=
  match com c with
  | Some f =>
      match call_raises f with
      | Some (ActionError msg) => [ActionError msg]
      | Some (OffboardError msg) => [OffboardError msg]
      | Some (IndexError msg) =>
          if String.eqb msg empty_deque_message then []
          else [IndexError msg]
      | _ => []
      end
  | None => []
  end.

Definition is_action (st : HookStep) : bool :=
  match st with
  | hook_action _ => true
  | _ => false
  end.

Definition is_put (st : HookStep) : bool :=
  match st with
  | hook_put _ => true
  | _ => false
  end.

(** The last [n] entries of a history. *)
Definition lastn {A : Type} (n : nat) (l : list A) : list A :=
  skipn (List.length l - n) l.

Fixpoint submissions {request : Type} (evs : list (PluginEvent request))
    : list (Task request) :=
  match evs with
  | [] => []
  | submitted t :: evs' => t :: submissions evs'
  | completed _ :: evs' => submissions evs'
  end.

Fixpoint results {request : Type} (evs : list (PluginEvent request))
    : list TaskValue :=
  match evs with
  | [] => []
  | completed t :: evs' =>
      match result t with
      | Ok v => v :: results evs'
      | Raise _ => results evs'
      end
  | submitted _ :: evs' => results evs'
  end.
End Traces.

(** The time a pass of the worker loop lasts: the pass itself, then its
    sleep. *)
Fixpoint loop_time (clock : list R) (sleeps : list (option R)) : R :=
  match clock, sleeps with
  | end_time :: clock', slept :: sleeps' =>
      (end_time + match slept with Some d => d | None => 0 end
       + loop_time clock' sleeps')%R
  | _, _ => 0%R
  end.

(** ** The transponder plugin *)

Section TransponderPlugin.
Variable vehicle : Type.                    (* [transponder.AdsbVehicle] *)
Variable vehicle_eqb : vehicle -> vehicle -> bool.      (* its [__eq__] *)

Record Transponder : Type := {
  _transponder_data : option vehicle
}.

(** [transponder != self._transponder_data]; a vehicle differs from
    [None]. *)
Definition differs (sample : vehicle) (cached : option vehicle) : bool :=
  match cached with
  | Some v => negb (vehicle_eqb sample v)
  | None => true
  end.

(** [_transponder_update] over the samples the stream has delivered. *)
Fixpoint _transponder_update (samples : list vehicle) (self : Transponder)
    : Transponder :=
  match samples with
  | [] => self
  | sample :: samples' =>
      _transponder_update samples'
        (if differs sample (_transponder_data self)
         then {| _transponder_data := Some sample |}
         else self)
  end.

Definition transponder (self : Transponder) : option vehicle :=
  _transponder_data self.
End TransponderPlugin.

(** * Properties *)

(** ** Facts about the real-number instance *)

Module RealFacts.
Import RealNum.
Local Open Scope R_scope.

Lemma Rlt_bool_spec (x y : R) : reflect (x < y) (Rlt_bool x y).
Proof. unfold Rlt_bool. destruct (Rlt_dec x y); constructor; assumption. Qed.

Lemma Rdegrees_PI : Rdegrees PI = 180.
Proof. unfold Rdegrees. field. apply PI_neq0. Qed.

Lemma Rradians_0 : Rradians 0 = 0.
Proof. unfold Rradians. ring. Qed.

Lemma Rradians_90 : Rradians 90 = PI / 2.
Proof. unfold Rradians. field. Qed.

Lemma Ratan2_west (x : R) : x < 0 -> Ratan2 0 x = PI.
Proof.
  intros Hx. unfold Ratan2.
  destruct (Rlt_dec 0 x); [ lra | ].
  destruct (Rlt_dec x 0); [ | lra ].
  destruct (Rle_dec 0 0); [ | lra ].
  unfold Rdiv. rewrite Rmult_0_l, atan_0. ring.
Qed.
End RealFacts.

(** ** Facts about binary64 *)

Module Binary64Facts.
Import SpecFloat FloatOps FloatAxioms Binary64.
Local Open Scope float_scope.

(** The tests of [PrimFloat] in terms of the specification floats. *)
Lemma is_zero_spec (z : float) :
  PrimFloat.is_zero z = true <-> exists s, Prim2SF z = S754_zero s.
Proof.
  unfold PrimFloat.is_zero. rewrite eqb_spec.
  change (Prim2SF zero) with (S754_zero false).
  destruct (Prim2SF z) as [ s | s | | s m e ]; cbn; split;
    try discriminate; try (intros [s' Hs]; discriminate Hs);
    try (intros _; eexists; reflexivity); try reflexivity.
  all: destruct s; cbn; try discriminate;
    try (intros [s' Hs]; discriminate Hs).
Qed.

Lemma is_finite_spec (x : float) :
  is_finite x = true ->
  (exists s, Prim2SF x = S754_zero s)
  \/ (exists s m e, Prim2SF x = S754_finite s m e).
Proof.
  unfold is_finite, is_nan, is_infinity.
  rewrite !eqb_spec, abs_spec.
  change (Prim2SF infinity) with (S754_infinity false).
  destruct (Prim2SF x) as [ s | s | | s m e ].
  - intros _. left. eexists; reflexivity.
  - destruct s; cbn; discriminate.
  - cbn. discriminate.
  - intros _. right. eexists _, _, _; reflexivity.
Qed.

(** Products, sums and differences of zeros are zeros. *)
Lemma zero_mul_finite (z x : float) :
  PrimFloat.is_zero z = true -> is_finite x = true ->
  PrimFloat.is_zero (z * x) = true.
Proof.
  intros Hz Hx. apply is_zero_spec in Hz as [s Hz].
  apply is_zero_spec. rewrite mul_spec, Hz.
  destruct (is_finite_spec x Hx) as [[s' ->] | (s' & m & e & ->)];
    cbn; eexists; reflexivity.
Qed.

Lemma finite_mul_zero (x z : float) :
  is_finite x = true -> PrimFloat.is_zero z = true ->
  PrimFloat.is_zero (x * z) = true.
Proof.
  intros Hx Hz. apply is_zero_spec in Hz as [s Hz].
  apply is_zero_spec. rewrite mul_spec, Hz.
  destruct (is_finite_spec x Hx) as [[s' ->] | (s' & m & e & ->)];
    cbn; eexists; reflexivity.
Qed.

Lemma zero_add_zero (a b : float) :
  PrimFloat.is_zero a = true -> PrimFloat.is_zero b = true ->
  PrimFloat.is_zero (a + b) = true.
Proof.
  intros Ha Hb. apply is_zero_spec in Ha as [sa Ha].
  apply is_zero_spec in Hb as [sb Hb].
  apply is_zero_spec. rewrite add_spec, Ha, Hb.
  destruct sa, sb; cbn; eexists; reflexivity.
Qed.

Lemma zero_sub_zero (a b : float) :
  PrimFloat.is_zero a = true -> PrimFloat.is_zero b = true ->
  PrimFloat.is_zero (a - b) = true.
Proof.
  intros Ha Hb. apply is_zero_spec in Ha as [sa Ha].
  apply is_zero_spec in Hb as [sb Hb].
  apply is_zero_spec. rewrite sub_spec, Ha, Hb.
  destruct sa, sb; cbn; eexists; reflexivity.
Qed.

(** Adding a zero changes nothing but, possibly, the sign of a zero. *)
Lemma zero_add (z x : float) :
  PrimFloat.is_zero z = true -> same_number (z + x) x.
Proof.
  intros Hz. pose proof Hz as Hz'. apply is_zero_spec in Hz as [s Hz].
  destruct (Prim2SF x) as [ sx | sx | | sx m e ] eqn:Hx.
  - right. split; [ | apply is_zero_spec; eexists; exact Hx ].
    apply zero_add_zero; [ exact Hz' | apply is_zero_spec; eexists; exact Hx ].
  - left. apply Prim2SF_inj. rewrite add_spec, Hz, Hx. reflexivity.
  - left. apply Prim2SF_inj. rewrite add_spec, Hz, Hx. reflexivity.
  - left. apply Prim2SF_inj. rewrite add_spec, Hz, Hx. reflexivity.
Qed.

(** A finite result is returned as it is. *)
Lemma math_1_finite (func : float -> float) (x : float) :
  is_finite (func x) = true -> math_1 func false x = Ok (func x).
Proof.
  unfold math_1, is_finite. intros Hfin.
  apply negb_true_iff, orb_false_iff in Hfin as [-> ->]. reflexivity.
Qed.

(** Rounding keeps the sign. *)
Lemma binary_round_aux_sign (sx : bool) (mx ex : Z) (lx : location) :
  binary_round_aux prec emax sx mx ex lx = S754_nan
  \/ binary_round_aux prec emax sx mx ex lx = S754_zero sx
  \/ binary_round_aux prec emax sx mx ex lx = S754_infinity sx
  \/ exists m e, binary_round_aux prec emax sx mx ex lx = S754_finite sx m e.
Proof.
  unfold binary_round_aux.
  destruct (shr_fexp prec emax mx ex lx) as [mrs' e'].
  destruct (shr_fexp prec emax _ e' loc_Exact) as [mrs'' e''].
  destruct (shr_m mrs'') as [ | m | m ].
  - right. left. reflexivity.
  - destruct (e'' <=? emax - prec)%Z.
    + right. right. right. eexists _, _. reflexivity.
    + right. right. left. reflexivity.
  - left. reflexivity.
Qed.

(** A square root is never below a number that is zero or less. *)
Lemma sqrt_not_below (x m : float) :
  (m <=? 0) = true -> (PrimFloat.sqrt x <? m) = false.
Proof.
  rewrite leb_spec, ltb_spec, sqrt_spec.
  change (Prim2SF 0) with (S754_zero false).
  unfold SF64sqrt, SFsqrt.
  destruct (Prim2SF x) as [ sx | sx | | sx mx ex ].
  - destruct (Prim2SF m) as [ sm | sm | | sm mm em ]; cbn;
      try reflexivity; try discriminate; destruct sm; cbn;
      try reflexivity; try discriminate.
  - destruct sx, (Prim2SF m) as [ sm | sm | | sm mm em ]; cbn;
      try reflexivity; try discriminate; destruct sm; cbn;
      try reflexivity; try discriminate.
  - destruct (Prim2SF m) as [ sm | sm | | sm mm em ]; cbn;
      try reflexivity; try discriminate.
  - destruct sx.
    + destruct (Prim2SF m); reflexivity.
    + destruct (SFsqrt_core_binary prec emax (Z.pos mx) ex) as [[mz ez] lz].
      destruct (binary_round_aux_sign false mz ez lz)
        as [ -> | [ -> | [ -> | (m' & e' & ->) ] ] ];
        destruct (Prim2SF m) as [ sm | sm | | sm mm em ]; cbn;
        try reflexivity; try discriminate; destruct sm; cbn;
        try reflexivity; try discriminate.
Qed.

(** [math.pow(x, 2)] when the C library returns a finite square. *)
Lemma pow_at (libm : Libm) (x x2 : float) :
  libm_pow libm x 2 = x2 -> is_finite x = true -> is_finite x2 = true ->
  @pow float _ (binary64_math libm) x 2 = Ok x2.
Proof.
  intros Hx Hfx Hfx2. change (math_pow libm x 2 = Ok x2).
  unfold math_pow. rewrite Hfx, Hx.
  change (is_finite 2) with true. cbn [negb orb].
  unfold is_finite in Hfx2.
  apply negb_true_iff, orb_false_iff in Hfx2 as [-> ->]. reflexivity.
Qed.

(** A square beyond the largest double. *)
Lemma pow_overflow (libm : Libm) (x : float) :
  libm_pow libm x 2 = infinity -> is_finite x = true ->
  (x =? 0) = false ->
  @pow float _ (binary64_math libm) x 2 = Raise range_error.
Proof.
  intros Hx Hfx Hnz. change (math_pow libm x 2 = Raise range_error).
  unfold math_pow. rewrite Hfx, Hx, Hnz. reflexivity.
Qed.

(** [math.sin(x)] and [math.cos(x)] when the C library returns a finite
    value. *)
Lemma sin_at (libm : Libm) (x v : float) :
  libm_sin libm x = v -> is_finite v = true ->
  @sin float _ (binary64_math libm) x = Ok v.
Proof. intros <- Hfin. apply math_1_finite. exact Hfin. Qed.

Lemma cos_at (libm : Libm) (x v : float) :
  libm_cos libm x = v -> is_finite v = true ->
  @cos float _ (binary64_math libm) x = Ok v.
Proof. intros <- Hfin. apply math_1_finite. exact Hfin. Qed.
End Binary64Facts.

(** ** Maneuver geometry *)

Module ManeuverProperties.
Import RealNum RealFacts Binary64 Binary64Facts.
Local Open Scope R_scope.

(** C1 as stated fails.  At heading 0, a request one unit to the right:
    the setpoint the formula with [right] unmodified predicts is not the
    one issued (the east component issued is -1, the predicted one is 1). *)
Lemma maneuver_right_unmodified_counterexample :
  let yaw0 := Rradians 0 in
  let front := 0 in
  let right := 1 in
  let north :=
    right * Rtrigo_def.sin yaw0 + (- front) * Rtrigo_def.cos yaw0 in
  let east :=
    right * Rtrigo_def.cos yaw0 - (- front) * Rtrigo_def.sin yaw0 in
  _maneuver_with_ned (drone_heading 0 5) front right 0 all_axes <>
  Ok (set_position_ned
        {| sp_north_m := north + 0; sp_east_m := east + 0;
           sp_down_m := 0 + 0;
           sp_yaw_deg := Rdegrees (Ratan2 east north) |}).
Proof.
  intros yaw0 front right north east Heq.
  apply (f_equal (fun c => match c with
                           | Ok (set_position_ned p) => sp_east_m p
                           | _ => 0
                           end)) in Heq.
  subst north east yaw0 front right. cbn in Heq.
  rewrite Rradians_0, sin_0, cos_0 in Heq. lra.
Qed.

(** The setpoint in any arithmetic, once the sine and the cosine of the
    heading are there. *)
Lemma maneuver_with_ned_value {num : Type} {F : PyFloat num}
    {M : PyMath num} (self : AbstractDrone num) (front right down : num)
    (on_dimensions : on_dimensions_t) (s c : num) :
  let yaw0 := radians (attitude_euler_yaw_deg (telemetry self)) in
  let here := position_velocity_ned_position (telemetry self) in
  sin yaw0 = Ok s ->
  cos yaw0 = Ok c ->
  let front' := if dim0 on_dimensions then (of_int (-1) * front)%py
                else of_int 0 in
  let right' := if dim1 on_dimensions then (of_int (-1) * right)%py
                else of_int 0 in
  let down' := if dim2 on_dimensions then down else of_int 0 in
  let north := (right' * s + front' * c)%py in
  let east := (right' * c - front' * s)%py in
  _maneuver_with_ned self front right down on_dimensions =
  Ok (set_position_ned
        {| sp_north_m := (north + north_m here)%py;
           sp_east_m := (east + east_m here)%py;
           sp_down_m := (down' + down_m here)%py;
           sp_yaw_deg := degrees (atan2 east north) |}).
Proof.
  intros yaw0 here Hs Hc.
  destruct on_dimensions as [[d0 d1] d2].
  unfold _maneuver_with_ned. fold yaw0. rewrite Hs, Hc.
  destruct d0, d1, d2; reflexivity.
Qed.

(** The same over the reals, where the sine and the cosine never raise. *)
Lemma maneuver_with_ned_real (self : AbstractDrone R) (front right down : R)
    (on_dimensions : on_dimensions_t) :
  let yaw0 := Rradians (attitude_euler_yaw_deg (telemetry self)) in
  let here := position_velocity_ned_position (telemetry self) in
  let s := Rtrigo_def.sin yaw0 in
  let c := Rtrigo_def.cos yaw0 in
  let front' := if dim0 on_dimensions then -1 * front else 0 in
  let right' := if dim1 on_dimensions then -1 * right else 0 in
  let down' := if dim2 on_dimensions then down else 0 in
  let north := right' * s + front' * c in
  let east := right' * c - front' * s in
  _maneuver_with_ned self front right down on_dimensions =
  Ok (set_position_ned
        {| sp_north_m := north + north_m here;
           sp_east_m := east + east_m here;
           sp_down_m := down' + down_m here;
           sp_yaw_deg := Rdegrees (Ratan2 east north) |}).
Proof.
  intros yaw0 here s c.
  exact (@maneuver_with_ned_value R _ _ self front right down on_dimensions
           s c eq_refl eq_refl).
Qed.

(** The same in binary64, once the C library has returned finite values. *)
Lemma maneuver_with_ned_binary64 (libm : Libm) (self : AbstractDrone float)
    (front right down : float) (on_dimensions : on_dimensions_t)
    (s c : float) :
  let yaw0 := (attitude_euler_yaw_deg (telemetry self) * degToRad)%float in
  let here := position_velocity_ned_position (telemetry self) in
  libm_sin libm yaw0 = s ->
  libm_cos libm yaw0 = c ->
  is_finite s = true ->
  is_finite c = true ->
  let front' := if dim0 on_dimensions then (-1 * front)%float
                else 0%float in
  let right' := if dim1 on_dimensions then (-1 * right)%float
                else 0%float in
  let down' := if dim2 on_dimensions then down else 0%float in
  let north := (right' * s + front' * c)%float in
  let east := (right' * c - front' * s)%float in
  _maneuver_with_ned (M := binary64_math libm) self front right down
    on_dimensions =
  Ok (set_position_ned
        {| sp_north_m := (north + north_m here)%float;
           sp_east_m := (east + east_m here)%float;
           sp_down_m := (down' + down_m here)%float;
           sp_yaw_deg := (m_atan2 libm east north * radToDeg)%float |}).
Proof.
  intros yaw0 here Hs Hc Hfs Hfc.
  apply (@maneuver_with_ned_value float _ (binary64_math libm)).
  - apply sin_at; assumption.
  - apply cos_at; assumption.
Qed.

(** In binary64 at heading 0, where the sine is 0 and the cosine 1. *)
Lemma maneuver_with_ned_heading_0 (libm : Libm)
    (min_follow_distance front right down : float) :
  libm_sin libm 0%float = 0%float ->
  libm_cos libm 0%float = 1%float ->
  let north := (-1 * right * 0 + -1 * front * 1)%float in
  let east := (-1 * right * 1 - -1 * front * 0)%float in
  _maneuver_with_ned (M := binary64_math libm)
    (drone_heading 0%float min_follow_distance) front right down all_axes =
  Ok (set_position_ned
        {| sp_north_m := (north + 0)%float;
           sp_east_m := (east + 0)%float;
           sp_down_m := (down + 0)%float;
           sp_yaw_deg := (m_atan2 libm east north * radToDeg)%float |}).
Proof.
  intros Hsin Hcos.
  pose proof (@maneuver_with_ned_binary64 libm
                (drone_heading 0%float min_follow_distance)
                front right down all_axes 0%float 1%float) as Hv.
  cbv zeta in Hv.
  replace (attitude_euler_yaw_deg
             (telemetry (drone_heading 0 min_follow_distance))
           * degToRad)%float with 0%float in Hv
    by (vm_compute; reflexivity).
  exact (Hv Hsin Hcos eq_refl eq_refl).
Qed.

(** C1 (amended): with all axes enabled, [front] and [right] are both
    multiplied by -1 before the projection, [down] is not; the
    displacement is the rotation of that pair by the current heading, it
    is added to the current position, and the setpoint yaw is
    [atan2(east, north)] in degrees: in any arithmetic.  At heading 0 the
    request (10, 0, 0) gives north -10, east 0, yaw 180, over the reals
    and in binary64; at heading 90 it gives north 0 and east 10 up to
    [2^-30], over the reals and in binary64. *)
Theorem maneuver_with_ned_projection :
  (forall (num : Type) (F : PyFloat num) (M : PyMath num)
      (self : AbstractDrone num) (front right down s c : num),
      let yaw0 := radians (attitude_euler_yaw_deg (telemetry self)) in
      let here := position_velocity_ned_position (telemetry self) in
      sin yaw0 = Ok s ->
      cos yaw0 = Ok c ->
      let front' := (of_int (-1) * front)%py in
      let right' := (of_int (-1) * right)%py in
      let north := (right' * s + front' * c)%py in
      let east := (right' * c - front' * s)%py in
      _maneuver_with_ned self front right down all_axes =
      Ok (set_position_ned
            {| sp_north_m := (north + north_m here)%py;
               sp_east_m := (east + east_m here)%py;
               sp_down_m := (down + down_m here)%py;
               sp_yaw_deg := degrees (atan2 east north) |}))
  /\ _maneuver_with_ned (drone_heading 0 5) 10 0 0 all_axes =
     Ok (set_position_ned
           {| sp_north_m := -10; sp_east_m := 0; sp_down_m := 0;
              sp_yaw_deg := 180 |})
  /\ (exists p : PositionNedYaw R,
         _maneuver_with_ned (drone_heading 90 5) 10 0 0 all_axes =
         Ok (set_position_ned p)
         /\ Rabs (sp_north_m p) <= / 2 ^ 30
         /\ Rabs (sp_east_m p - 10) <= / 2 ^ 30)
  /\ (forall libm : Libm,
         libm_sin libm 0%float = 0%float ->
         libm_cos libm 0%float = 1%float ->
         _maneuver_with_ned (M := binary64_math libm)
           (drone_heading 0 5)%float 10%float 0%float 0%float all_axes =
         Ok (set_position_ned
               {| sp_north_m := (-10)%float; sp_east_m := 0%float;
                  sp_down_m := 0%float; sp_yaw_deg := 180%float |}))
  /\ (forall libm : Libm,
         libm_sin libm (90 * degToRad)%float = 1%float ->
         libm_cos libm (90 * degToRad)%float = 0x1.1a62633145c07p-54%float ->
         exists p : PositionNedYaw float,
           _maneuver_with_ned (M := binary64_math libm)
             (drone_heading 90 5)%float 10%float 0%float 0%float all_axes =
           Ok (set_position_ned p)
           /\ (PrimFloat.abs (sp_north_m p) <? 0x1p-30)%float = true
           /\ (PrimFloat.abs (sp_east_m p - 10) <? 0x1p-30)%float = true).
Proof.
  split; [ | split; [ | split; [ | split ] ] ].
  - intros num F M self front right down s c yaw0 here Hs Hc.
    exact (maneuver_with_ned_value self front right down all_axes Hs Hc).
  - rewrite maneuver_with_ned_real.
    cbn. rewrite Rradians_0, sin_0, cos_0.
    replace (-1 * 0 * 0 + -1 * 10 * 1) with (-10) by ring.
    replace (-1 * 0 * 1 - -1 * 10 * 0) with 0 by ring.
    rewrite Ratan2_west by lra. rewrite Rdegrees_PI.
    do 2 f_equal. f_equal; ring.
  - rewrite maneuver_with_ned_real.
    eexists. split; [ reflexivity | ].
    cbn. rewrite Rradians_90, sin_PI2, cos_PI2.
    assert (Htol : 0 <= / 2 ^ 30)
      by (left; apply Rinv_0_lt_compat; apply pow_lt; lra).
    split.
    + replace (-1 * 0 * 1 + -1 * 10 * 0 + 0) with 0 by ring.
      rewrite Rabs_R0. exact Htol.
    + replace (-1 * 0 * 0 - -1 * 10 * 1 + 0 - 10) with 0 by ring.
      rewrite Rabs_R0. exact Htol.
  - intros libm Hsin Hcos.
    rewrite (@maneuver_with_ned_heading_0 libm 5%float 10%float 0%float
               0%float Hsin Hcos).
    vm_compute. reflexivity.
  - intros libm Hsin Hcos.
    pose proof (@maneuver_with_ned_binary64 libm (drone_heading 90 5)%float
                  10%float 0%float 0%float all_axes
                  1%float 0x1.1a62633145c07p-54%float) as Hv.
    cbv zeta in Hv.
    rewrite (Hv Hsin Hcos eq_refl eq_refl).
    eexists. split; [ reflexivity | ].
    split; vm_compute; reflexivity.
Qed.

Lemma maneuver_with_ned_projection_witness :
  _maneuver_with_ned (M := binary64_math example_libm)
    (drone_heading 0 5)%float 10%float 0%float 0%float all_axes =
  Ok (set_position_ned
        {| sp_north_m := (-10)%float; sp_east_m := 0%float;
           sp_down_m := 0%float; sp_yaw_deg := 180%float |}).
Proof.
  destruct maneuver_with_ned_projection as (_ & _ & _ & Hzero & _).
  apply (Hzero example_libm); reflexivity.
Defined.

(** C3 as stated fails.  With [min_follow_distance = 5], the request
    (2^600, 0, 0) is longer than 5, yet no position setpoint is issued:
    its square is beyond binary64 and [math.pow] raises [OverflowError]. *)
Lemma maneuver_to_overflow_counterexample :
  (5 <=? 0x1p+600)%float = true
  /\ _maneuver_to (M := binary64_math example_libm)
       (drone_heading 0 5)%float 0x1p+600%float 0%float 0%float all_axes
       true
     = Raise range_error
  /\ forall p : PositionNedYaw float,
      _maneuver_to (M := binary64_math example_libm)
        (drone_heading 0 5)%float 0x1p+600%float 0%float 0%float all_axes
        true
      <> Ok (set_position_ned p).
Proof.
  assert (Hraise : _maneuver_to (M := binary64_math example_libm)
                     (drone_heading 0 5)%float 0x1p+600%float 0%float
                     0%float all_axes true
                   = Raise range_error)
    by (vm_compute; reflexivity).
  split; [ reflexivity | split; [ exact Hraise | ] ].
  intros p. rewrite Hraise. discriminate.
Qed.

(** The test in any arithmetic, once the three squares and the root are
    there: the strict comparison decides between the hold and the
    setpoint computation. *)
Lemma maneuver_to_gate {num : Type} {F : PyFloat num} {M : PyMath num}
    (self : AbstractDrone num) (front right down : num)
    (on_dimensions : on_dimensions_t)
    (front2 right2 down2 totalDistance : num) :
  pow front (of_int 2) = Ok front2 ->
  pow right (of_int 2) = Ok right2 ->
  pow down (of_int 2) = Ok down2 ->
  sqrt (front2 + right2 + down2)%py = Ok totalDistance ->
  _maneuver_to self front right down on_dimensions true =
  if (totalDistance <? _min_follow_distance self)%py then Ok hold_command
  else _maneuver_with_ned self front right down on_dimensions.
Proof.
  intros Hf Hr Hd Hn. unfold _maneuver_to.
  rewrite Hf, Hr, Hd. cbn [bind]. rewrite Hn. reflexivity.
Qed.

Lemma maneuver_to_ungated {num : Type} {F : PyFloat num} {M : PyMath num}
    (self : AbstractDrone num) (front right down : num)
    (on_dimensions : on_dimensions_t) :
  _maneuver_to self front right down on_dimensions false =
  _maneuver_with_ned self front right down on_dimensions.
Proof. reflexivity. Qed.

(** A call to [math] that raises ends the request. *)
Lemma maneuver_to_raises {num : Type} {F : PyFloat num} {M : PyMath num}
    (self : AbstractDrone num) (front right down : num)
    (on_dimensions : on_dimensions_t) (e : PyException) :
  pow front (of_int 2) = Raise e
  \/ (exists front2 : num,
         pow front (of_int 2) = Ok front2
         /\ pow right (of_int 2) = Raise e)
  \/ (exists front2 right2 : num,
         pow front (of_int 2) = Ok front2
         /\ pow right (of_int 2) = Ok right2
         /\ pow down (of_int 2) = Raise e)
  \/ (exists front2 right2 down2 : num,
         pow front (of_int 2) = Ok front2
         /\ pow right (of_int 2) = Ok right2
         /\ pow down (of_int 2) = Ok down2
         /\ sqrt (front2 + right2 + down2)%py = Raise e) ->
  _maneuver_to self front right down on_dimensions true = Raise e.
Proof.
  intros [ Hf | [ (front2 & Hf & Hr)
                | [ (front2 & right2 & Hf & Hr & Hd)
                  | (front2 & right2 & down2 & Hf & Hr & Hd & Hn) ] ] ];
    unfold _maneuver_to;
    rewrite ?Hf; cbn [bind]; rewrite ?Hr; cbn [bind];
    rewrite ?Hd; cbn [bind]; rewrite ?Hn; reflexivity.
Qed.

(** C3 (amended): with [test_min] set, in any arithmetic.  When
    [math.pow] returns the three squares and [math.sqrt] the root of their
    sum, the request is answered by the zero-velocity hold, and by no
    position command, exactly when the computed root is strictly below
    [min_follow_distance]; otherwise the engine goes on to the position
    setpoint, which is issued once the sine and the cosine are there.
    When one of these calls raises, the request ends with that exception
    and nothing is issued.  In binary64 with [min_follow_distance = 5]:
    at heading 0: the zero request is held; (3, 4, 0), of length exactly
    5, is flown, to north -3 and east -4; so is
    (3, 3.9999999999999996, 0), whose computed length is 5; and for
    (2^600, 0, 0) [math.pow] raises [OverflowError]. *)
Theorem maneuver_to_min_distance_gate :
  (forall (num : Type) (F : PyFloat num) (M : PyMath num)
      (self : AbstractDrone num) (front right down : num)
      (on_dimensions : on_dimensions_t)
      (front2 right2 down2 totalDistance : num),
      pow front (of_int 2) = Ok front2 ->
      pow right (of_int 2) = Ok right2 ->
      pow down (of_int 2) = Ok down2 ->
      sqrt (front2 + right2 + down2)%py = Ok totalDistance ->
      ((totalDistance <? _min_follow_distance self)%py = true ->
       _maneuver_to self front right down on_dimensions true =
       Ok hold_command)
      /\ ((totalDistance <? _min_follow_distance self)%py = false ->
          _maneuver_to self front right down on_dimensions true =
          _maneuver_with_ned self front right down on_dimensions
          /\ forall s c : num,
              sin (radians (attitude_euler_yaw_deg (telemetry self)))
              = Ok s ->
              cos (radians (attitude_euler_yaw_deg (telemetry self)))
              = Ok c ->
              exists p : PositionNedYaw num,
                _maneuver_to self front right down on_dimensions true =
                Ok (set_position_ned p)))
  /\ (forall (num : Type) (F : PyFloat num) (M : PyMath num)
         (self : AbstractDrone num) (front right down : num)
         (on_dimensions : on_dimensions_t) (e : PyException),
         pow front (of_int 2) = Raise e
         \/ (exists front2 : num,
                pow front (of_int 2) = Ok front2
                /\ pow right (of_int 2) = Raise e)
         \/ (exists front2 right2 : num,
                pow front (of_int 2) = Ok front2
                /\ pow right (of_int 2) = Ok right2
                /\ pow down (of_int 2) = Raise e)
         \/ (exists front2 right2 down2 : num,
                pow front (of_int 2) = Ok front2
                /\ pow right (of_int 2) = Ok right2
                /\ pow down (of_int 2) = Ok down2
                /\ sqrt (front2 + right2 + down2)%py = Raise e) ->
         _maneuver_to self front right down on_dimensions true = Raise e)
  /\ (forall libm : Libm,
         libm_pow libm 0%float 2%float = 0%float ->
         libm_pow libm 3%float 2%float = 9%float ->
         libm_pow libm 4%float 2%float = 16%float ->
         libm_pow libm 0x1.fffffffffffffp+1%float 2%float
         = 0x1.ffffffffffffep+3%float ->
         libm_pow libm 0x1p+600%float 2%float = infinity ->
         libm_sin libm 0%float = 0%float ->
         libm_cos libm 0%float = 1%float ->
         let self := (drone_heading 0 5)%float in
         _maneuver_to (M := binary64_math libm) self
           0%float 0%float 0%float all_axes true
         = Ok hold_command
         /\ (exists p : PositionNedYaw float,
                _maneuver_to (M := binary64_math libm) self
                  3%float 4%float 0%float all_axes true
                = Ok (set_position_ned p)
                /\ sp_north_m p = (-3)%float
                /\ sp_east_m p = (-4)%float)
         /\ (exists p : PositionNedYaw float,
                _maneuver_to (M := binary64_math libm) self
                  3%float 0x1.fffffffffffffp+1%float 0%float all_axes true
                = Ok (set_position_ned p)
                /\ sp_north_m p = (-3)%float
                /\ sp_east_m p = (-0x1.fffffffffffffp+1)%float)
         /\ _maneuver_to (M := binary64_math libm) self
              0x1p+600%float 0%float 0%float all_axes true
            = Raise range_error).
Proof.
  split; [ | split ].
  - intros num F M self front right down on_dimensions
      front2 right2 down2 totalDistance Hf Hr Hd Hn.
    rewrite (maneuver_to_gate self front right down on_dimensions
               Hf Hr Hd Hn).
    split; intros ->; [ reflexivity | ].
    split; [ reflexivity | ].
    intros s c Hs Hc.
    rewrite (maneuver_with_ned_value self front right down on_dimensions
               Hs Hc).
    eexists. reflexivity.
  - intros num F M self front right down on_dimensions e.
    apply maneuver_to_raises.
  - intros libm H0 H3 H4 Hb Hbig Hsin Hcos self.
    assert (Hpow : forall x x2 : float,
               libm_pow libm x 2%float = x2 ->
               is_finite x = true -> is_finite x2 = true ->
               @pow float _ (binary64_math libm) x 2%float = Ok x2)
      by (intros x x2 Hx Hfx Hfx2; exact (@pow_at libm x x2 Hx Hfx Hfx2)).
    split; [ | split; [ | split ] ].
    + rewrite (@maneuver_to_gate float _ (binary64_math libm) self
                 0%float 0%float 0%float all_axes
                 0%float 0%float 0%float 0%float
                 (Hpow _ _ H0 eq_refl eq_refl)
                 (Hpow _ _ H0 eq_refl eq_refl)
                 (Hpow _ _ H0 eq_refl eq_refl) eq_refl).
      reflexivity.
    + rewrite (@maneuver_to_gate float _ (binary64_math libm) self
                 3%float 4%float 0%float all_axes
                 9%float 16%float 0%float 5%float
                 (Hpow _ _ H3 eq_refl eq_refl)
                 (Hpow _ _ H4 eq_refl eq_refl)
                 (Hpow _ _ H0 eq_refl eq_refl) eq_refl).
      match goal with
      | |- context [if ?below then _ else _] =>
          replace below with false by (vm_compute; reflexivity)
      end.
      subst self.
      rewrite (@maneuver_with_ned_heading_0 libm 5%float 3%float 4%float
                 0%float Hsin Hcos).
      eexists. split; [ reflexivity | ].
      split; vm_compute; reflexivity.
    + rewrite (@maneuver_to_gate float _ (binary64_math libm) self
                 3%float 0x1.fffffffffffffp+1%float 0%float all_axes
                 9%float 0x1.ffffffffffffep+3%float 0%float 5%float
                 (Hpow _ _ H3 eq_refl eq_refl)
                 (Hpow _ _ Hb eq_refl eq_refl)
                 (Hpow _ _ H0 eq_refl eq_refl) eq_refl).
      match goal with
      | |- context [if ?below then _ else _] =>
          replace below with false by (vm_compute; reflexivity)
      end.
      subst self.
      rewrite (@maneuver_with_ned_heading_0 libm 5%float 3%float
                 0x1.fffffffffffffp+1%float 0%float Hsin Hcos).
      eexists. split; [ reflexivity | ].
      split; vm_compute; reflexivity.
    + apply (@maneuver_to_raises float _ (binary64_math libm)).
      left. exact (@pow_overflow libm _ Hbig eq_refl eq_refl).
Qed.

(** The spec's two inputs, with [min_follow_distance = 5]: the zero
    request is held, the request (3, 4, 0) is flown. *)
Lemma maneuver_to_min_distance_gate_witness :
  _maneuver_to (M := binary64_math example_libm) (drone_heading 0 5)%float
    0%float 0%float 0%float all_axes true
  = Ok hold_command
  /\ exists p : PositionNedYaw float,
      _maneuver_to (M := binary64_math example_libm)
        (drone_heading 0 5)%float 3%float 4%float 0%float all_axes true
      = Ok (set_position_ned p)
      /\ sp_north_m p = (-3)%float
      /\ sp_east_m p = (-4)%float.
Proof.
  destruct maneuver_to_min_distance_gate as (_ & _ & Hexamples).
  destruct (Hexamples example_libm eq_refl eq_refl eq_refl eq_refl eq_refl
              eq_refl eq_refl)
    as (Hzero & Hfive & _).
  split; assumption.
Defined.

(** In binary64, a displacement whose three components are zeros after
    masking leaves the position where it is, up to the sign of a zero. *)
Lemma zero_displacement_binary64 (libm : Libm) (self : AbstractDrone float)
    (front right down : float) (on_dimensions : on_dimensions_t) :
  let yaw0 := (attitude_euler_yaw_deg (telemetry self) * degToRad)%float in
  let here := position_velocity_ned_position (telemetry self) in
  let front' := if dim0 on_dimensions then (-1 * front)%float
                else 0%float in
  let right' := if dim1 on_dimensions then (-1 * right)%float
                else 0%float in
  let down' := if dim2 on_dimensions then down else 0%float in
  PrimFloat.is_zero front' = true ->
  PrimFloat.is_zero right' = true ->
  PrimFloat.is_zero down' = true ->
  is_finite (libm_sin libm yaw0) = true ->
  is_finite (libm_cos libm yaw0) = true ->
  exists p : PositionNedYaw float,
    _maneuver_with_ned (M := binary64_math libm) self front right down
      on_dimensions
    = Ok (set_position_ned p)
    /\ same_number (sp_north_m p) (north_m here)
    /\ same_number (sp_east_m p) (east_m here)
    /\ same_number (sp_down_m p) (down_m here).
Proof.
  intros yaw0 here front' right' down' Hf Hr Hd Hs Hc.
  rewrite (@maneuver_with_ned_binary64 libm self front right down
             on_dimensions _ _ eq_refl eq_refl Hs Hc).
  fold yaw0 here front' right' down'.
  eexists. split; [ reflexivity | ].
  cbn [sp_north_m sp_east_m sp_down_m].
  repeat split.
  - apply zero_add, zero_add_zero; apply zero_mul_finite; assumption.
  - apply zero_add, zero_sub_zero; apply zero_mul_finite; assumption.
  - apply zero_add. exact Hd.
Qed.

(** C8: the zero request with all axes enabled and [test_min] unset is
    not short-circuited: a position command is issued whose north, east
    and down are the current position.  Over the reals they are equal; in
    binary64, for a heading whose sine and cosine the C library returns as
    finite numbers, they are the same numbers (a zero may change its
    sign). *)
Theorem maneuver_to_zero_displacement :
  (forall self : AbstractDrone R,
      let here := position_velocity_ned_position (telemetry self) in
      exists yaw : R,
        _maneuver_to self 0 0 0 all_axes false =
        Ok (set_position_ned
              {| sp_north_m := north_m here; sp_east_m := east_m here;
                 sp_down_m := down_m here; sp_yaw_deg := yaw |}))
  /\ (forall (libm : Libm) (self : AbstractDrone float)
         (front right down : float),
         let yaw0 :=
           (attitude_euler_yaw_deg (telemetry self) * degToRad)%float in
         let here := position_velocity_ned_position (telemetry self) in
         PrimFloat.is_zero front = true ->
         PrimFloat.is_zero right = true ->
         PrimFloat.is_zero down = true ->
         is_finite (libm_sin libm yaw0) = true ->
         is_finite (libm_cos libm yaw0) = true ->
         exists p : PositionNedYaw float,
           _maneuver_to (M := binary64_math libm) self front right down
             all_axes false
           = Ok (set_position_ned p)
           /\ same_number (sp_north_m p) (north_m here)
           /\ same_number (sp_east_m p) (east_m here)
           /\ same_number (sp_down_m p) (down_m here)).
Proof.
  split.
  - intros self here. rewrite maneuver_to_ungated.
    rewrite maneuver_with_ned_real. fold here.
    cbn [all_axes dim0 dim1 dim2 fst snd].
    set (s := Rtrigo_def.sin _). set (c := Rtrigo_def.cos _).
    eexists. do 2 f_equal. f_equal; ring.
  - intros libm self front right down yaw0 here Hf Hr Hd Hs Hc.
    rewrite maneuver_to_ungated.
    apply zero_displacement_binary64; try assumption.
    + apply finite_mul_zero; [ reflexivity | exact Hf ].
    + apply finite_mul_zero; [ reflexivity | exact Hr ].
Qed.

(** At heading 0, where the sine is 0 and the cosine 1. *)
Lemma maneuver_to_zero_displacement_witness :
  exists p : PositionNedYaw float,
    _maneuver_to (M := binary64_math example_libm)
      (drone_heading 0 5)%float 0%float 0%float 0%float all_axes false
    = Ok (set_position_ned p)
    /\ same_number (sp_north_m p) 0%float
    /\ same_number (sp_east_m p) 0%float
    /\ same_number (sp_down_m p) 0%float.
Proof.
  destruct maneuver_to_zero_displacement as [_ Hbinary].
  destruct (Hbinary example_libm (drone_heading 0 5)%float
              0%float 0%float 0%float eq_refl eq_refl eq_refl eq_refl
              eq_refl)
    as (p & Hp & Hnorth & Heast & Hdown).
  exists p. repeat split; assumption.
Defined.
End ManeuverProperties.

(** ** Geofence *)

Module GeofenceProperties.
Import RealNum Binary64.

(** C5: the offset in degrees is [distance * (1 / 111111)]; exactly one
    polygon of exactly four corners is uploaded, tagged inclusive: the
    square with corners at home plus or minus the offset in latitude and
    longitude, in the order (-,-), (+,-), (+,+), (-,+); its sides are
    parallel to the axes and twice the offset long, and its diagonals meet
    at home.  For home (10, 20) and distance 111111 the corners are
    (9, 19), (11, 19), (11, 21), (9, 21): in real arithmetic, and also in
    binary64, where the rounded product [111111 * (1 / 111111)] is
    exactly 1. *)
Theorem create_geofence_square :
  (forall (tel : Telemetry R) (distance : R),
      let latitude := latitude_deg (home tel) in
      let longitude := longitude_deg (home tel) in
      let offset := (distance * (1 / 111111))%R in
      _create_geofence tel distance =
      square ((latitude - offset)%R, (longitude - offset)%R)
             ((latitude + offset)%R, (longitude - offset)%R)
             ((latitude + offset)%R, (longitude + offset)%R)
             ((latitude - offset)%R, (longitude + offset)%R))
  /\ (forall (tel : Telemetry R) (distance : R),
         exists p1 p2 p3 p4 : Point R,
           _create_geofence tel distance =
           upload_geofence
             [{| points := [p1; p2; p3; p4]; fence_type := INCLUSION |}]
           /\ longitude_deg p1 = longitude_deg p2
           /\ latitude_deg p2 = latitude_deg p3
           /\ longitude_deg p3 = longitude_deg p4
           /\ latitude_deg p4 = latitude_deg p1
           /\ (latitude_deg p2 - latitude_deg p1 =
               2 * (distance * (1 / 111111)))%R
           /\ (longitude_deg p3 - longitude_deg p2 =
               2 * (distance * (1 / 111111)))%R
           /\ ((latitude_deg p1 + latitude_deg p3) / 2 =
               latitude_deg (home tel))%R
           /\ ((longitude_deg p1 + longitude_deg p3) / 2 =
               longitude_deg (home tel))%R)
  /\ _create_geofence (drone_home 10%R 20%R) 111111%R =
     square (9%R, 19%R) (11%R, 19%R) (11%R, 21%R) (9%R, 21%R)
  /\ _create_geofence (drone_home 10%float 20%float) 111111%float =
     square (9%float, 19%float) (11%float, 19%float)
            (11%float, 21%float) (9%float, 21%float).
Proof.
  split; [ | split; [ | split ] ].
  - intros tel distance. reflexivity.
  - intros tel distance. unfold _create_geofence.
    eexists _, _, _, _. split; [ reflexivity | ].
    cbn. repeat split; field.
  - unfold _create_geofence, square. cbn.
    replace (111111 * (1 / 111111))%R with 1%R by (field; lra).
    repeat f_equal; ring.
  - vm_compute. reflexivity.
Qed.
End GeofenceProperties.

(** ** Command Queue and Command Worker *)

Module WorkerProperties.
Section Generic.
Context {num : Type} `{PyFloat num}.

Lemma calls_app (e1 e2 : list (Effect num)) :
  calls (e1 ++ e2) = calls e1 ++ calls e2.
Proof.
  induction e1 as [ | x e1 IH ]; [ reflexivity | ].
  destruct x; cbn; rewrite ?IH; reflexivity.
Qed.


Lemma worker_exit_queue (self : AbstractDrone num) (e : option PyException) :
  _queue (fst (worker_exit self e)) = _queue self
  /\ calls (snd (worker_exit self e)) = [].
Proof.
  unfold worker_exit, _cleanup.
  destruct (_drone self); destruct e; cbn; split; reflexivity.
Qed.

Lemma iteration_try_idle (self : AbstractDrone num) :
  _queue self = [] ->
  iteration_try self = {| after := self; effects := []; uncaught := None |}.
Proof.
  intros Hq. unfold iteration_try, popleft. rewrite Hq.
  rewrite String.eqb_refl. reflexivity.
Qed.

(** One pass of the [try] block calls the head of the queue, if it holds
    a callable, and nothing else. *)
Lemma iteration_try_calls (self : AbstractDrone num) :
  calls (effects (iteration_try self)) ++
    pending (_queue (after (iteration_try self))) =
  pending (_queue self).
Proof.
  destruct (_queue self) as [ | c rest ] eqn:Hq.
  { rewrite (iteration_try_idle self Hq). cbn. rewrite Hq. reflexivity. }
  unfold iteration_try, popleft, _process_command. rewrite Hq.
  cbn [pending].
  destruct (com c) as [ f | ]; [ | reflexivity ].
  destruct (call_raises f)
    as [ [ msg | msg | msg | msg | msg | msg | msg | msg | msg ] | ];
    cbn;
    try destruct (negb (String.eqb msg empty_deque_message));
    try destruct (iscoroutinefunction f);
    cbn; rewrite ?calls_app; reflexivity.
Qed.

Lemma worker_pass_calls (self : AbstractDrone num) :
  calls (snd (worker_pass self)) ++ pending (_queue (fst (worker_pass self)))
  = pending (_queue self).
Proof.
  unfold worker_pass.
  destruct (_mavlink_thread self); try reflexivity.
  destruct (_stopped_mavlink self).
  - destruct (worker_exit_queue self None) as [Hq Hc].
    rewrite Hq, Hc. reflexivity.
  - pose proof (iteration_try_calls self) as Hit.
    destruct (uncaught (iteration_try self)) as [ e | ]; [ | exact Hit ].
    destruct (worker_exit_queue (after (iteration_try self)) (Some e))
      as [Hq Hc].
    destruct (worker_exit (after (iteration_try self)) (Some e)) as [s eff].
    cbn in *. rewrite calls_app, Hq, Hc, app_nil_r. exact Hit.
Qed.







Lemma iteration_try_time_slice (self : AbstractDrone num) :
  _time_slice (after (iteration_try self)) = _time_slice self.
Proof.
  unfold iteration_try, popleft, _process_command.
  destruct (_queue self) as [ | c rest ].
  - rewrite String.eqb_refl. reflexivity.
  - destruct (com c) as [ f | ]; [ | reflexivity ].
    destruct (call_raises f)
      as [ [ msg | msg | msg | msg | msg | msg | msg | msg | msg ] | ];
      cbn;
      try destruct (negb (String.eqb msg empty_deque_message));
      try destruct (iscoroutinefunction f);
      reflexivity.
Qed.
End Generic.

Import RealNum RealFacts Binary64.


Local Open Scope R_scope.

(** C6: a pass over an empty queue raises nothing and leaves the worker
    running: the failed pop is swallowed, nothing is printed or called,
    the session (queue included) is unchanged, and the pass sleeps for
    what is left of the time slice, so that pass and sleep together last
    [time_slice]. *)
Theorem idle_iteration (self : AbstractDrone R) (end_time : R) :
  _queue self = [] ->
  fst (iteration end_time self) =
    {| after := self; effects := []; uncaught := None |}
  /\ (_mavlink_thread self = alive -> _stopped_mavlink self = false ->
      worker_pass self = (self, []))
  /\ (0 <= end_time < _time_slice self ->
      exists d : R,
        snd (iteration end_time self) = Some d
        /\ end_time + d = _time_slice self
        /\ 0 < d <= _time_slice self).
Proof.
  intros Hq. unfold iteration, worker_pass.
  rewrite (iteration_try_idle self Hq). cbn [fst snd after uncaught effects].
  split; [ reflexivity | split ].
  - intros -> ->. reflexivity.
  - intros [Hnonneg Hlt]. exists (_time_slice self - end_time).
    unfold iteration_finally. cbn.
    destruct (Rlt_bool_spec end_time (_time_slice self)); [ | contradiction ].
    split; [ reflexivity | split; lra ].
Qed.

Lemma idle_iteration_witness :
  fst (iteration (1 / 100) (CSM_Gazebo (num := R))) =
    {| after := CSM_Gazebo; effects := []; uncaught := None |}
  /\ worker_pass (CSM_Gazebo (num := R)) = (CSM_Gazebo, [])
  /\ snd (iteration (1 / 100) (CSM_Gazebo (num := R))) =
     Some (1 / 20 - 1 / 100).
Proof.
  destruct (idle_iteration (CSM_Gazebo (num := R)) (1 / 100) eq_refl)
    as (Hsame & Hpass & Hsleep).
  split; [ exact Hsame | split ].
  - apply Hpass; reflexivity.
  - destruct Hsleep as (d & Hd & Hsum & _).
    + cbn. lra.
    + rewrite Hd. f_equal. cbn in Hsum. lra.
Defined.

(** C7: whatever the pass did (dispatched, idled, caught an error, or let
    one through), it ends by sleeping [time_slice - elapsed] when
    [elapsed < time_slice] and by not sleeping otherwise: the time slept
    is [max(0, time_slice - elapsed)]. *)
Theorem iteration_sleep (self : AbstractDrone R) (end_time : R) :
  let slept := snd (iteration end_time self) in
  (end_time < _time_slice self ->
   slept = Some (_time_slice self - end_time))
  /\ (_time_slice self <= end_time -> slept = None)
  /\ match slept with Some d => d | None => 0 end =
     Rmax 0 (_time_slice self - end_time).
Proof.
  unfold iteration, iteration_finally. cbn [snd].
  rewrite iteration_try_time_slice. cbn.
  destruct (Rlt_bool_spec end_time (_time_slice self)) as [Hlt | Hge].
  - split; [ reflexivity | split; [ intros; lra | ] ].
    rewrite Rmax_right by lra. reflexivity.
  - split; [ intros; lra | split; [ reflexivity | ] ].
    rewrite Rmax_left by lra. reflexivity.
Qed.
End WorkerProperties.

(** ** Lifecycle: stopping twice *)

Module LifecycleProperties.
Section Generic.
Context {num : Type} `{PyFloat num}.

Lemma same_frame_refl (s : AbstractDrone num) : same_frame s s.
Proof. repeat split. Qed.

Lemma same_frame_trans (s1 s2 s3 : AbstractDrone num) :
  same_frame s1 s2 -> same_frame s2 s3 -> same_frame s1 s3.
Proof.
  unfold same_frame. intros (a1 & a2 & a3 & a4 & a5) (b1 & b2 & b3 & b4 & b5).
  repeat split; congruence.
Qed.

Lemma worker_exit_spec (self : AbstractDrone num) (e : option PyException) :
  let s := fst (worker_exit self e) in
  same_frame self s /\ _queue s = _queue self
  /\ _drone s = None /\ _mavlink_thread s = finished.
Proof.
  unfold worker_exit, _cleanup.
  destruct (_drone self) eqn:Hd; cbn; repeat split; assumption.
Qed.

Lemma iteration_try_spec (self : AbstractDrone num) :
  let s := after (iteration_try self) in
  same_frame self s /\ _drone s = _drone self
  /\ _mavlink_thread s = _mavlink_thread self.
Proof.
  unfold iteration_try, popleft, _process_command.
  destruct (_queue self) as [ | c rest ].
  - rewrite String.eqb_refl. cbn. repeat split.
  - destruct (com c) as [ f | ]; [ | cbn; repeat split ].
    destruct (call_raises f)
      as [ [ msg | msg | msg | msg | msg | msg | msg | msg | msg ] | ];
      cbn;
      try destruct (negb (String.eqb msg empty_deque_message));
      try destruct (iscoroutinefunction f);
      cbn; repeat split.
Qed.

Lemma worker_pass_spec (self : AbstractDrone num) :
  let s := fst (worker_pass self) in
  same_frame self s /\ (accounted self -> accounted s).
Proof.
  unfold worker_pass.
  destruct (_mavlink_thread self) eqn:Hthread;
    try (cbn; split; [ apply same_frame_refl | tauto ]).
  destruct (_stopped_mavlink self).
  - destruct (worker_exit_spec self None) as (Hf & _ & Hd & _).
    split; [ exact Hf | intros _; left; exact Hd ].
  - destruct (iteration_try_spec self) as (Hf & Hd & Ht).
    destruct (uncaught (iteration_try self)) as [ e | ].
    + destruct (worker_exit_spec (after (iteration_try self)) (Some e))
        as (Hf' & _ & Hd' & _).
      destruct (worker_exit (after (iteration_try self)) (Some e)) as [s eff].
      cbn in *. split; [ | intros _; left; exact Hd' ].
      apply same_frame_trans with (1 := Hf). exact Hf'.
    + cbn. split; [ exact Hf | ].
      intros _. right. left. congruence.
Qed.

Lemma drain_spec (fuel : nat) :
  forall self : AbstractDrone num,
    let s := fst (drain fuel self) in
    same_frame self s /\ (accounted self -> accounted s).
Proof.
  induction fuel as [ | fuel IH ]; intros self.
  - cbn. split; [ apply same_frame_refl | tauto ].
  - cbn [drain].
    destruct (_queue self) as [ | c rest ];
      [ cbn; split; [ apply same_frame_refl | tauto ] | ].
    destruct (_mavlink_thread self);
      try (cbn; split; [ apply same_frame_refl | tauto ]).
    destruct (worker_pass_spec self) as [Hf Ha].
    destruct (worker_pass self) as [s e].
    destruct (IH s) as [Hf' Ha'].
    destruct (drain fuel s) as [s' e'].
    cbn in *. split; [ | tauto ].
    apply same_frame_trans with (1 := Hf). exact Hf'.
Qed.

Lemma put_spec (self : AbstractDrone num) (f : Callable) (a : Args num)
    (k : Kwargs num) :
  let s := fst (put self f a k) in
  same_frame self s /\ (accounted self -> accounted s).
Proof.
  cbn. split; [ repeat split | ].
  unfold accounted. cbn. intros [Hd | [Ht | Hq]]; [ tauto | tauto | ].
  right. right. destruct (_queue self); [ contradiction | discriminate ].
Qed.

Lemma run_hook_spec (steps : list HookStep) :
  forall self : AbstractDrone num,
    let s := fst (fst (run_hook steps self)) in
    same_frame self s /\ (accounted self -> accounted s).
Proof.
  induction steps as [ | st steps IH ]; intros self.
  - cbn. split; [ apply same_frame_refl | tauto ].
  - cbn [run_hook].
    assert (Hstep : match run_hook_step self st with
                    | Ok (s, _) =>
                        same_frame self s /\ (accounted self -> accounted s)
                    | Raise _ => True
                    end).
    { destruct st as [ r | name | obj ]; cbn.
      - split; [ apply same_frame_refl | tauto ].
      - unfold enqueue_action, drone_action.
        destruct (_drone self); [ | exact I ].
        apply put_spec.
      - apply put_spec. }
    destruct (run_hook_step self st) as [ [s e] | e ].
    + destruct Hstep as [Hf Ha].
      destruct (IH s) as [Hf' Ha'].
      destruct (run_hook steps s) as [[s' e'] exn].
      cbn in *. split; [ | tauto ].
      apply same_frame_trans with (1 := Hf). exact Hf'.
    + cbn. split; [ apply same_frame_refl | tauto ].
Qed.

Lemma run_hook_releases (steps : list HookStep) (self : AbstractDrone num) :
  forallb is_release steps = true ->
  run_hook steps self = (self, released_by steps, None).
Proof.
  induction steps as [ | st steps IH ]; intros Hrel; [ reflexivity | ].
  cbn in Hrel. apply andb_prop in Hrel as [Hst Hrest].
  destruct st; try discriminate Hst.
  cbn. rewrite (IH Hrest). reflexivity.
Qed.

Lemma stop_returns_stopped (self s1 : AbstractDrone num)
    (e1 : list (Effect num)) :
  stop self = Returned s1 e1 -> stopped (teardown self) s1.
Proof.
  unfold stop. cbv zeta.
  set (s0 := set_queue [] self).
  destruct (match disarm s0 with
            | Ok (s, e) => Ok (s, e)
            | Raise (AttributeError _) => Ok (s0, [])
            | Raise e => Raise e
            end) as [ [sA eA] | e ] eqn:Hdisarm; [ | discriminate ].
  assert (HA : same_frame s0 sA /\ accounted sA).
  { revert Hdisarm. unfold disarm, enqueue_action, drone_action.
    destruct (_drone s0) eqn:Hd.
    - intros [= <- _]. split; [ repeat split | ].
      right. right. cbn. discriminate.
    - intros [= <- _]. split; [ apply same_frame_refl | left; exact Hd ]. }
  destruct HA as [HfA HaA].
  set (sB := set_stopped_loop true sA).
  set (sC := match _loop_thread sB with
             | unstarted => sB
             | _ => set_loop_thread finished sB
             end).
  assert (HC : _stopped_loop sC = true /\ _loop_thread sC <> alive
               /\ _stopped_mavlink sC = _stopped_mavlink self
               /\ teardown sC = teardown self /\ accounted sC).
  { destruct HfA as (_ & Hm & _ & _ & Ht).
    subst sC. destruct (_loop_thread sB) eqn:Hl.
    - split; [ reflexivity | ].
      split; [ rewrite Hl; discriminate | ].
      split; [ exact Hm | split; [ exact Ht | exact HaA ] ].
    - split; [ reflexivity | ].
      split; [ cbn; discriminate | ].
      split; [ exact Hm | split; [ exact Ht | exact HaA ] ].
    - split; [ reflexivity | ].
      split; [ cbn; discriminate | ].
      split; [ exact Hm | split; [ exact Ht | exact HaA ] ]. }
  destruct HC as (HlC & HtC & HmC & HhC & HaC).
  destruct (run_hook_spec (teardown sC) sC) as [HfD HaD].
  destruct (run_hook (teardown sC) sC) as [[sD e3] exn].
  cbn [fst] in HfD, HaD.
  destruct exn as [ e | ]; [ discriminate | ].
  destruct (drain_spec (List.length (_queue sD)) sD) as [HfE HaE].
  destruct (drain (List.length (_queue sD)) sD) as [sE e4].
  cbn [fst] in HfE, HaE.
  destruct (_queue sE) as [ | c rest ] eqn:HqE; [ | discriminate ].
  pose proof (same_frame_trans HfD HfE) as (Hl & _ & Hlt & _ & Hh).
  assert (HaE' : _drone sE = None \/ _mavlink_thread sE = alive).
  { destruct (HaE (HaD HaC)) as [ Hd | [ Ht | Hq ] ];
      [ left; exact Hd | right; exact Ht | contradiction ]. }
  cbn [_mavlink_thread set_stopped_mavlink].
  destruct (_mavlink_thread sE) eqn:HtE; [ discriminate | | ].
  - (* the worker is alive: it sees the flag and leaves *)
    unfold worker_pass. cbn [_mavlink_thread _stopped_mavlink
                               set_stopped_mavlink].
    rewrite HtE.
    destruct (worker_exit_spec (set_stopped_mavlink true sE) None)
      as ((Fl & Fm & Flt & _ & Fh) & Fq & Fd & Ft).
    destruct (worker_exit (set_stopped_mavlink true sE) None) as [sF e5].
    cbn in Fl, Fm, Flt, Fh, Fq, Fd, Ft.
    intros [= <- _]. constructor; cbn; try congruence.
  - (* the worker is gone already *)
    unfold worker_pass. cbn [_mavlink_thread set_stopped_mavlink].
    rewrite HtE. cbn.
    intros [= <- _]. constructor; cbn; try congruence.
    destruct HaE' as [ Hd | Ht ]; [ exact Hd | discriminate ].
Qed.

(** C4 (amended): after a completed [stop], a second [stop] returns
    without raising when the teardown hook only releases resources of
    its own: the disarm is not enqueued (reading the released Link
    Handle raises the [AttributeError] that [stop] catches), nothing is
    dispatched, the Link Handle is not released again, no logging
    handler is closed again, and the session is left exactly as the
    first call left it; but the event loop is asked to stop again and
    the teardown hook runs a second time. *)
Theorem second_stop_reruns_teardown (self s1 : AbstractDrone num)
    (e1 : list (Effect num)) :
  stop self = Returned s1 e1 ->
  forallb is_release (teardown self) = true ->
  disarm s1 = Raise (AttributeError "_drone")
  /\ stop s1 = Returned s1 (loop_stop :: released_by (teardown self)).
Proof.
  intros Hfirst Hrel.
  destruct (stop_returns_stopped self Hfirst)
    as [Hq Hd Hw Hlf Hmf Hlt Hh Hk].
  destruct s1 as [sm sl ts mfd addr drone q wt lt handlers tel hook].
  cbn in Hq, Hd, Hw, Hlf, Hmf, Hlt, Hh, Hk. subst.
  split; [ reflexivity | ].
  unfold stop.
  destruct lt; [ | contradiction Hlt; reflexivity | ];
    cbn; rewrite (run_hook_releases _ _ Hrel); cbn;
    rewrite ?app_nil_r; reflexivity.
Qed.
End Generic.

Import Binary64.

(** C4 as stated fails.  [CSM_Gazebo().stop()] twice: the second call is
    not free of side effects, it closes [self.fp] again and asks the event
    loop to stop again. *)
Lemma second_stop_not_silent :
  exists (s1 : AbstractDrone float) (e1 : list (Effect float)),
    stop CSM_Gazebo = Returned s1 e1
    /\ stop s1 = Returned s1 [loop_stop; released "fp"]
    /\ stop s1 <> Returned s1 [].
Proof.
  eexists _, _. split; [ vm_compute; reflexivity | ].
  split; [ vm_compute; reflexivity | ].
  vm_compute. discriminate.
Qed.

(** A hook that lands the vehicle with [self.land()] is outside the
    theorem above: reading the released Link Handle inside the hook is
    not caught. *)
Example landing_drone_second_stop :
  exists (s1 : AbstractDrone float) (e1 : list (Effect float)),
    stop landing_drone = Returned s1 e1
    /\ stop s1 = Raised (AttributeError "_drone") s1 [loop_stop].
Proof.
  eexists _, _. split; vm_compute; reflexivity.
Qed.

Lemma second_stop_reruns_teardown_witness :
  exists (s1 : AbstractDrone float) (e1 : list (Effect float)),
    stop CSM_Hexsoon = Returned s1 e1
    /\ disarm s1 = Raise (AttributeError "_drone")
    /\ stop s1 = Returned s1 [loop_stop; released "cam"; released "fp"].
Proof.
  eexists _, _. split; [ vm_compute; reflexivity | ].
  eapply (@second_stop_reruns_teardown float CSM_Hexsoon);
    vm_compute; reflexivity.
Defined.
End LifecycleProperties.

(** ** Plugin task caches *)

Module PluginProperties.
Lemma deque_append_length (A : Type) (maxlen : nat) (q : list A) (x : A) :
  (List.length q <= maxlen)%nat ->
  (List.length (deque_append maxlen q x) <= maxlen)%nat.
Proof.
  intros Hlen. unfold deque_append.
  destruct (Nat.ltb_spec maxlen (List.length (q ++ [x]))) as [Hover | Hfits].
  - destruct q as [ | a q ]; cbn in *; [ lia | ].
    rewrite length_app in *. cbn in *. lia.
  - exact Hfits.
Qed.

Lemma deque_append_newest (A : Type) (maxlen : nat) (q : list A) (x : A) :
  (0 < maxlen)%nat ->
  exists older : list A, deque_append maxlen q x = older ++ [x].
Proof.
  intros Hpos. unfold deque_append.
  destruct (Nat.ltb_spec maxlen (List.length (q ++ [x]))) as [Hover | Hfits].
  - destruct q as [ | a q ].
    + cbn in Hover. lia.
    + exists q. reflexivity.
  - exists q. reflexivity.
Qed.

Lemma deque_append_full (A : Type) (maxlen : nat) (q : list A) (x : A) :
  List.length q = maxlen ->
  deque_append maxlen q x = tl (q ++ [x]).
Proof.
  intros Hlen. unfold deque_append.
  destruct (Nat.ltb_spec maxlen (List.length (q ++ [x]))) as [Hover | Hfits].
  - reflexivity.
  - rewrite length_app in Hfits. cbn in Hfits. lia.
Qed.

Lemma deque_append_room (A : Type) (maxlen : nat) (q : list A) (x : A) :
  (List.length q < maxlen)%nat ->
  deque_append maxlen q x = q ++ [x].
Proof.
  intros Hlen. unfold deque_append.
  destruct (Nat.ltb_spec maxlen (List.length (q ++ [x]))) as [Hover | Hfits].
  - rewrite length_app in Hover. cbn in Hover. lia.
  - reflexivity.
Qed.

Section Caches.
Variable request : Type.

Lemma plugin_step_within_capacity (p : AbstractPlugin request)
    (ev : PluginEvent request) :
  within_capacity p -> within_capacity (plugin_step p ev).
Proof.
  intros [Htasks Hresults]. destruct ev as [ t | t ]; cbn.
  - split; [ apply deque_append_length; exact Htasks | exact Hresults ].
  - unfold _task_callback. destruct (result t); cbn.
    + split; [ exact Htasks | apply deque_append_length; exact Hresults ].
    + split; assumption.
Qed.

Lemma plugin_run_within_capacity (evs : list (PluginEvent request)) :
  forall p : AbstractPlugin request,
    within_capacity p -> within_capacity (plugin_run evs p).
Proof.
  induction evs as [ | ev evs IH ]; intros p Hp; [ exact Hp | ].
  cbn. apply IH. apply plugin_step_within_capacity. exact Hp.
Qed.

(** C9: after any sequence of submissions and completions on a fresh
    plugin, neither cache holds more than 10 entries; [submit_task]
    always succeeds, returns the task it was given and leaves it as the
    newest entry of the Pending-Task Cache; on a full cache it drops the
    oldest entry, otherwise none; and a completion does the same to the
    Result Cache. *)
Theorem task_caches_bounded :
  (forall evs : list (PluginEvent request),
      let p := plugin_run evs (plugin_init request) in
      (List.length (_task_cache p) <= 10)%nat
      /\ (List.length (_result_cache p) <= 10)%nat)
  /\ (forall (p : AbstractPlugin request) (t : Task request),
         snd (submit_task p t) = t
         /\ (exists older : list (Task request),
                _task_cache (fst (submit_task p t)) = older ++ [t])
         /\ (List.length (_task_cache p) = 10%nat ->
             _task_cache (fst (submit_task p t)) =
             tl (_task_cache p ++ [t]))
         /\ ((List.length (_task_cache p) < 10)%nat ->
             _task_cache (fst (submit_task p t)) = _task_cache p ++ [t]))
  /\ (forall (p : AbstractPlugin request) (t : Task request)
             (v : TaskValue),
         result t = Ok v ->
         List.length (_result_cache p) = 10%nat ->
         _result_cache (_task_callback p t) = tl (_result_cache p ++ [v])).
Proof.
  split; [ | split ].
  - intros evs. apply plugin_run_within_capacity.
    split; cbn; lia.
  - intros p t. cbn. split; [ reflexivity | ].
    split; [ apply deque_append_newest; lia | ].
    split; [ apply deque_append_full | apply deque_append_room ].
  - intros p t v Hv Hfull. unfold _task_callback. rewrite Hv. cbn.
    apply deque_append_full. exact Hfull.
Qed.
End Caches.

(** Twelve submissions: the cache holds the last ten, oldest first. *)
Example twelve_submissions :
  map (@get_coro nat)
    (_task_cache
       (plugin_run (map (fun n => submitted (numbered n)) (seq 0 12))
          (plugin_init nat)))
  = seq 2 10.
Proof. reflexivity. Qed.
End PluginProperties.

(** ** The offboard flag *)

Module OffboardProperties.
Import OffboardPlugin Binary64.


(** A controller that rejects every request does not keep the flag from
    being raised. *)
Example start_rejected :
  is_active
    (complete_pending
       (fst (start (num := float) rejecting (init rejecting)))) = true.
Proof. reflexivity. Qed.
End OffboardProperties.

(** * Further properties *)

(** ** Maneuver geometry, beyond the all-axes case *)

Module ManeuverMore.
Import RealNum RealFacts Binary64 Binary64Facts.
Local Open Scope R_scope.

(** X1: a request with every axis disabled asks for the current position,
    whatever its three components are (also when they are not numbers): a
    position command is issued whose north, east and down are the current
    position.  Over the reals they are equal; in binary64, for a heading
    whose sine and cosine the C library returns as finite numbers, they
    are the same numbers (a zero may change its sign). *)
Theorem disabled_axes_request_current_position :
  (forall (self : AbstractDrone R) (front right down : R),
      let here := position_velocity_ned_position (telemetry self) in
      exists yaw : R,
        _maneuver_with_ned self front right down (false, false, false) =
        Ok (set_position_ned
              {| sp_north_m := north_m here; sp_east_m := east_m here;
                 sp_down_m := down_m here; sp_yaw_deg := yaw |}))
  /\ (forall (libm : Libm) (self : AbstractDrone float)
         (front right down : float),
         let yaw0 :=
           (attitude_euler_yaw_deg (telemetry self) * degToRad)%float in
         let here := position_velocity_ned_position (telemetry self) in
         is_finite (libm_sin libm yaw0) = true ->
         is_finite (libm_cos libm yaw0) = true ->
         exists p : PositionNedYaw float,
           _maneuver_with_ned (M := binary64_math libm) self front right
             down (false, false, false)
           = Ok (set_position_ned p)
           /\ same_number (sp_north_m p) (north_m here)
           /\ same_number (sp_east_m p) (east_m here)
           /\ same_number (sp_down_m p) (down_m here)).
Proof.
  split.
  - intros self front right down here.
    rewrite ManeuverProperties.maneuver_with_ned_real. fold here.
    cbn [dim0 dim1 dim2 fst snd].
    set (s := Rtrigo_def.sin _). set (c := Rtrigo_def.cos _).
    eexists. do 2 f_equal. f_equal; ring.
  - intros libm self front right down yaw0 here Hs Hc.
    apply ManeuverProperties.zero_displacement_binary64;
      solve [ reflexivity | assumption ].
Qed.

(** A request that is not a number, with every axis disabled, at heading
    0. *)
Lemma disabled_axes_request_current_position_witness :
  exists p : PositionNedYaw float,
    _maneuver_with_ned (M := binary64_math example_libm)
      (drone_heading 0 5)%float nan nan nan (false, false, false)
    = Ok (set_position_ned p)
    /\ same_number (sp_north_m p) 0%float
    /\ same_number (sp_east_m p) 0%float
    /\ same_number (sp_down_m p) 0%float.
Proof.
  destruct disabled_axes_request_current_position as [_ Hbinary].
  destruct (Hbinary example_libm (drone_heading 0 5)%float nan nan nan
              eq_refl eq_refl)
    as (p & Hp & Hnorth & Heast & Hdown).
  exists p. repeat split; assumption.
Defined.

(** X2: the projection is a rotation: the horizontal distance between the
    setpoint and the current position is the length of the enabled part of
    the (front, right) request, whatever the heading, and the vertical
    offset is the enabled part of [down]. *)
Theorem maneuver_preserves_distance (self : AbstractDrone R)
    (front right down : R) (on_dimensions : on_dimensions_t) :
  let here := position_velocity_ned_position (telemetry self) in
  exists p : PositionNedYaw R,
    _maneuver_with_ned self front right down on_dimensions =
    Ok (set_position_ned p)
    /\ (sp_north_m p - north_m here) ^ 2 + (sp_east_m p - east_m here) ^ 2 =
       mask (dim0 on_dimensions) front ^ 2
       + mask (dim1 on_dimensions) right ^ 2
    /\ sp_down_m p - down_m here = mask (dim2 on_dimensions) down.
Proof.
  intros here.
  rewrite ManeuverProperties.maneuver_with_ned_real. fold here.
  eexists. split; [ reflexivity | ]. cbn [sp_north_m sp_east_m sp_down_m].
  pose proof (sin2_cos2
                (Rradians (attitude_euler_yaw_deg (telemetry self))))
    as Hunit.
  unfold Rsqr in Hunit.
  set (s := Rtrigo_def.sin _) in *. set (c := Rtrigo_def.cos _) in *.
  set (f := if dim0 on_dimensions then -1 * front else 0).
  set (r := if dim1 on_dimensions then -1 * right else 0).
  assert (Hf : f * f = mask (dim0 on_dimensions) front ^ 2)
    by (subst f; unfold mask; destruct (dim0 on_dimensions); cbn; ring).
  assert (Hr : r * r = mask (dim1 on_dimensions) right ^ 2)
    by (subst r; unfold mask; destruct (dim1 on_dimensions); cbn; ring).
  split.
  - rewrite <- Hf, <- Hr.
    replace ((r * s + f * c + north_m here - north_m here) ^ 2
             + (r * c - f * s + east_m here - east_m here) ^ 2)
      with ((f * f + r * r) * (s * s + c * c))
      by ring.
    rewrite Hunit. ring.
  - unfold mask. destruct (dim2 on_dimensions); cbn; ring.
Qed.

Lemma maneuver_with_ned_never_holds {num : Type} {F : PyFloat num}
    {M : PyMath num} (self : AbstractDrone num) (front right down : num)
    (on_dimensions : on_dimensions_t) :
  _maneuver_with_ned self front right down on_dimensions <>
  Ok hold_command.
Proof.
  unfold _maneuver_with_ned.
  destruct (sin _); [ | discriminate ]. cbn [bind].
  destruct (cos _); [ | discriminate ]. cbn [bind].
  discriminate.
Qed.

(** X4: the minimum-distance test measures the request as given, before
    any axis is masked.  In any arithmetic, whether a request is answered
    by the hold, and whether the test itself raises, does not depend on
    [on_dimensions]: a request with every axis disabled is held exactly
    when the same request with all axes enabled is.  In binary64 with
    [min_follow_distance = 5], the request (1, 1, 1) with every axis
    disabled is held, although it asks for no movement at all. *)
Theorem gate_ignores_disabled_axes :
  (forall (num : Type) (F : PyFloat num) (M : PyMath num)
      (self : AbstractDrone num) (front right down : num)
      (on_dimensions on_dimensions' : on_dimensions_t),
      (_maneuver_to self front right down on_dimensions true
       = Ok hold_command
       <-> _maneuver_to self front right down on_dimensions' true
           = Ok hold_command)
      /\ (_maneuver_to self front right down on_dimensions true =
          _maneuver_with_ned self front right down on_dimensions
          \/ _maneuver_to self front right down on_dimensions true =
             _maneuver_to self front right down on_dimensions' true))
  /\ (forall libm : Libm,
         libm_pow libm 1%float 2%float = 1%float ->
         _maneuver_to (M := binary64_math libm) (drone_heading 0 5)%float
           1%float 1%float 1%float (false, false, false) true
         = Ok hold_command).
Proof.
  split.
  - intros num F M self front right down on_dimensions on_dimensions'.
    unfold _maneuver_to.
    destruct (pow front (of_int 2)) as [ front2 | e ]; cbn [bind];
      [ | split; [ reflexivity | right; reflexivity ] ].
    destruct (pow right (of_int 2)) as [ right2 | e ]; cbn [bind];
      [ | split; [ reflexivity | right; reflexivity ] ].
    destruct (pow down (of_int 2)) as [ down2 | e ]; cbn [bind];
      [ | split; [ reflexivity | right; reflexivity ] ].
    destruct (sqrt _) as [ totalDistance | e ]; cbn [bind];
      [ | split; [ reflexivity | right; reflexivity ] ].
    destruct (lt totalDistance (_min_follow_distance self)).
    + split; [ reflexivity | right; reflexivity ].
    + split; [ | left; reflexivity ].
      split; intros Habs; apply maneuver_with_ned_never_holds in Habs;
        contradiction.
  - intros libm Hone.
    pose proof (@pow_at libm 1%float 1%float Hone eq_refl eq_refl) as Hpow.
    rewrite (@ManeuverProperties.maneuver_to_gate float _
               (binary64_math libm) (drone_heading 0 5)%float
               1%float 1%float 1%float (false, false, false)
               1%float 1%float 1%float 0x1.bb67ae8584caap+0%float
               Hpow Hpow Hpow eq_refl).
    reflexivity.
Qed.

Lemma gate_ignores_disabled_axes_witness :
  _maneuver_to (M := binary64_math example_libm) (drone_heading 0 5)%float
    1%float 1%float 1%float (false, false, false) true
  = Ok hold_command.
Proof.
  destruct gate_ignores_disabled_axes as [_ Hheld].
  exact (Hheld example_libm eq_refl).
Defined.

(** X5: a [min_follow_distance] of zero or less switches the test off.  In
    binary64, whatever the C library returns, no request is answered by
    the hold: with [test_min] set it goes on to the setpoint computation,
    unless a call to [math] ends it with an exception. *)
Theorem nonpositive_minimum_never_holds (libm : Libm)
    (self : AbstractDrone float) (front right down : float)
    (on_dimensions : on_dimensions_t) (test_min : bool) :
  (_min_follow_distance self <=? 0)%float = true ->
  _maneuver_to (M := binary64_math libm) self front right down
    on_dimensions test_min
  <> Ok hold_command
  /\ (_maneuver_to (M := binary64_math libm) self front right down
        on_dimensions test_min
      = _maneuver_with_ned (M := binary64_math libm) self front right down
          on_dimensions
      \/ exists e : PyException,
          _maneuver_to (M := binary64_math libm) self front right down
            on_dimensions test_min
          = Raise e).
Proof.
  intros Hmin.
  assert (Hgoes : _maneuver_to (M := binary64_math libm) self front right
                    down on_dimensions test_min
                  = _maneuver_with_ned (M := binary64_math libm) self front
                      right down on_dimensions
                  \/ exists e : PyException,
                      _maneuver_to (M := binary64_math libm) self front
                        right down on_dimensions test_min
                      = Raise e).
  { unfold _maneuver_to. destruct test_min; [ | left; reflexivity ].
    destruct (pow front (of_int 2)) as [ front2 | e ]; cbn [bind];
      [ | right; eexists; reflexivity ].
    destruct (pow right (of_int 2)) as [ right2 | e ]; cbn [bind];
      [ | right; eexists; reflexivity ].
    destruct (pow down (of_int 2)) as [ down2 | e ]; cbn [bind];
      [ | right; eexists; reflexivity ].
    change (sqrt (front2 + right2 + down2)%py)
      with (math_1 PrimFloat.sqrt false (front2 + right2 + down2)%float).
    unfold math_1.
    destruct (is_nan _ && negb (is_nan _))%bool;
      [ right; eexists; reflexivity | ].
    destruct (is_infinity _ && is_finite _)%bool;
      [ right; eexists; reflexivity | ].
    cbn [bind].
    change (lt ?a ?b) with (PrimFloat.ltb a b).
    rewrite (@sqrt_not_below _ _ Hmin). left. reflexivity. }
  split; [ | exact Hgoes ].
  destruct Hgoes as [ -> | [e ->] ]; [ | discriminate ].
  apply maneuver_with_ned_never_holds.
Qed.

(** The zero request with [min_follow_distance = 0] and [test_min] set. *)
Lemma nonpositive_minimum_never_holds_witness :
  _maneuver_to (M := binary64_math example_libm) (drone_heading 0 0)%float
    0%float 0%float 0%float all_axes true
  <> Ok hold_command.
Proof.
  apply (@nonpositive_minimum_never_holds example_libm
           (drone_heading 0 0)%float 0%float 0%float 0%float all_axes true
           eq_refl).
Defined.
End ManeuverMore.

(** ** Geofence: distances that are not positive *)

Module GeofenceMore.
Import RealNum.
Local Open Scope R_scope.

(** X6: the distance is not validated.  A zero distance uploads the
    polygon whose four corners all are the home point, and a negated
    distance uploads the same square started from the opposite corner
    (north-east, north-west, south-west, south-east). *)
Theorem geofence_zero_and_negative_distance (tel : Telemetry R)
    (distance : R) :
  let latitude := latitude_deg (home tel) in
  let longitude := longitude_deg (home tel) in
  let offset := distance * (1 / 111111) in
  _create_geofence tel 0 =
  square (latitude, longitude) (latitude, longitude)
         (latitude, longitude) (latitude, longitude)
  /\ _create_geofence tel (- distance) =
     square (latitude + offset, longitude + offset)
            (latitude - offset, longitude + offset)
            (latitude - offset, longitude - offset)
            (latitude + offset, longitude - offset).
Proof.
  intros latitude longitude offset.
  unfold _create_geofence, square. cbn. fold latitude longitude.
  split.
  - replace (0 * (1 / 111111)) with 0 by ring.
    rewrite !Rminus_0_r, !Rplus_0_r. reflexivity.
  - replace (- distance * (1 / 111111)) with (- offset)
      by (subst offset; ring).
    replace (latitude - - offset) with (latitude + offset) by ring.
    replace (latitude + - offset) with (latitude - offset) by ring.
    replace (longitude - - offset) with (longitude + offset) by ring.
    replace (longitude + - offset) with (longitude - offset) by ring.
    reflexivity.
Qed.
End GeofenceMore.

(** ** The public maneuver surface *)

Module DispatchProperties.
Section Generic.
Context {num : Type} `{PyMath num}.

(** X7: [maneuver_to] and [create_geofence] issue nothing themselves: they
    enqueue one coroutine call.  When the worker dispatches it, the worker
    schedules it and the coroutine, run on the session as it is then,
    issues the Link Handle request computed from the telemetry of that
    moment, not from the telemetry at the time of the request. *)
Theorem maneuver_reads_telemetry_at_dispatch (self : AbstractDrone num)
    (front right down distance : num) (on_dimensions : on_dimensions_t)
    (test_min : bool) (later : Telemetry num) :
  _queue self = [] ->
  _mavlink_thread self = alive ->
  _stopped_mavlink self = false ->
  (let requested :=
     fst (maneuver_to self front right down on_dimensions test_min) in
   let dispatched := worker_pass (set_telemetry later requested) in
   calls (snd (maneuver_to self front right down on_dimensions test_min))
   = []
   /\ _queue (fst dispatched) = []
   /\ In (ensure_future maneuver_to_method) (snd dispatched)
   /\ exists c,
       calls (snd dispatched) = [c]
       /\ perform (fst dispatched) c =
          Some (_maneuver_to (set_telemetry later self)
                  front right down on_dimensions test_min))
  /\ (let requested := fst (create_geofence self distance) in
      let dispatched := worker_pass (set_telemetry later requested) in
      calls (snd (create_geofence self distance)) = []
      /\ _queue (fst dispatched) = []
      /\ exists c,
          calls (snd dispatched) = [c]
          /\ perform (fst dispatched) c =
             Some (Ok (_create_geofence later distance))).
Proof.
  intros Hq Halive Hrun.
  destruct on_dimensions as [[d0 d1] d2].
  unfold maneuver_to, create_geofence, put, worker_pass.
  cbn [fst snd _mavlink_thread _stopped_mavlink set_telemetry set_queue
       _queue].
  rewrite Halive, Hrun, Hq.
  split.
  - cbn. repeat split; [ right; right; left; reflexivity | ].
    eexists. split; reflexivity.
  - cbn. repeat split.
    eexists. split; reflexivity.
Qed.
End Generic.

Import RealNum.

Lemma maneuver_reads_telemetry_at_dispatch_witness :
  exists c,
    calls (snd (worker_pass
                  (set_telemetry
                     (telemetry_at 0 0 0 90 0 0)%R
                     (fst (maneuver_to (drone_heading 0 5)%R
                             10%R 0%R 0%R all_axes false)))))
    = [c]
    /\ perform
         (fst (worker_pass
                 (set_telemetry
                    (telemetry_at 0 0 0 90 0 0)%R
                    (fst (maneuver_to (drone_heading 0 5)%R
                            10%R 0%R 0%R all_axes false)))))
         c
       = Some (_maneuver_to
                 (set_telemetry (telemetry_at 0 0 0 90 0 0)%R
                    (drone_heading 0 5)%R)
                 10%R 0%R 0%R all_axes false).
Proof.
  destruct (maneuver_reads_telemetry_at_dispatch
              (drone_heading 0 5)%R 10%R 0%R 0%R 0%R all_axes false
              (telemetry_at 0 0 0 90 0 0)%R eq_refl eq_refl eq_refl)
    as [(_ & _ & _ & Hc) _].
  exact Hc.
Defined.
End DispatchProperties.

(** ** The worker: errors, crashes and pace *)

Module WorkerMore.
Section Generic.
Context {num : Type} `{PyFloat num}.

Lemma printed_app (e1 e2 : list (Effect num)) :
  printed (e1 ++ e2) = printed e1 ++ printed e2.
Proof.
  induction e1 as [ | x e1 IH ]; [ reflexivity | ].
  destruct x; cbn; rewrite ?IH; reflexivity.
Qed.

(** One pass of a live worker over a queue headed by a survivable
    command. *)
Lemma survivable_pass (self : AbstractDrone num) :
  _mavlink_thread self = alive ->
  _stopped_mavlink self = false ->
  forallb survivable_command (_queue self) = true ->
  fst (worker_pass self) = set_queue (tl (_queue self)) self
  /\ printed (snd (worker_pass self)) =
     match _queue self with
     | [] => []
     | c :: _ => complaint c
     end.
Proof.
  intros Halive Hrun Hsurv. unfold worker_pass. rewrite Halive, Hrun.
  destruct (_queue self) as [ | c rest ] eqn:Hq.
  - rewrite (WorkerProperties.iteration_try_idle self Hq). cbn.
    split; [ | reflexivity ].
    destruct self; cbn in *; subst; reflexivity.
  - unfold iteration_try, popleft, _process_command. rewrite Hq.
    cbn in Hsurv. apply andb_prop in Hsurv as [Hc _].
    unfold survivable_command, survivable in Hc. unfold complaint.
    destruct (com c) as [ f | ]; [ | cbn; split; reflexivity ].
    destruct (call_raises f)
      as [ [ msg | msg | msg | msg | msg | msg | msg | msg | msg ] | ];
      try discriminate Hc; cbn;
      try destruct (String.eqb msg empty_deque_message);
      try destruct (iscoroutinefunction f);
      cbn; split; reflexivity.
Qed.

(** X8: errors the loop catches never stop it.  A live worker given as
    many passes as the queue is long dispatches every command of a queue
    whose calls return or raise [ActionError], [OffboardError] or
    [IndexError]; it prints, in dispatch order, exactly the errors raised,
    except an [IndexError] carrying the empty-deque message, which is
    swallowed without a trace; and it is alive afterwards. *)
Theorem caught_errors_are_printed_in_order (clock : list num) :
  forall self : AbstractDrone num,
    _mavlink_thread self = alive ->
    _stopped_mavlink self = false ->
    forallb survivable_command (_queue self) = true ->
    (List.length (_queue self) <= List.length clock)%nat ->
    let r := fst (_process_command_loop clock self) in
    printed (snd r) = flat_map complaint (_queue self)
    /\ calls (snd r) = pending (_queue self)
    /\ _queue (fst r) = []
    /\ _mavlink_thread (fst r) = alive.
Proof.
  induction clock as [ | end_time clock IH ];
    intros self Halive Hrun Hsurv Hlen.
  - destruct (_queue self) as [ | c rest ] eqn:Hq; [ | cbn in Hlen; lia ].
    cbn. repeat split; try reflexivity; assumption.
  - cbn [_process_command_loop].
    destruct (survivable_pass self Halive Hrun Hsurv) as [Hs Hp].
    pose proof (WorkerProperties.worker_pass_calls self) as Hcalls.
    destruct (worker_pass self) as [s e]. cbn [fst snd] in Hs, Hp, Hcalls.
    assert (Hs_q : _queue s = tl (_queue self)) by (subst s; reflexivity).
    assert (Hs_alive : _mavlink_thread s = alive) by (subst s; exact Halive).
    assert (Hs_run : _stopped_mavlink s = false) by (subst s; exact Hrun).
    assert (Hs_surv : forallb survivable_command (_queue s) = true).
    { rewrite Hs_q. destruct (_queue self); [ reflexivity | ].
      cbn in Hsurv. apply andb_prop in Hsurv as [_ Hrest]. exact Hrest. }
    assert (Hs_len : (List.length (_queue s) <= List.length clock)%nat).
    { rewrite Hs_q. destruct (_queue self); cbn in *; lia. }
    specialize (IH s Hs_alive Hs_run Hs_surv Hs_len).
    destruct (_process_command_loop clock s) as [[s' e'] sleeps].
    cbn [fst snd] in *.
    destruct IH as (IHp & IHc & IHq & IHa).
    rewrite printed_app, WorkerProperties.calls_app, Hp, IHp, IHc.
    split; [ | split; [ exact Hcalls | split; assumption ] ].
    rewrite Hs_q. destruct (_queue self); reflexivity.
Qed.

(** X9: an error the loop does not catch ends the worker for good.  The
    pass that dispatches the failing command releases the Link Handle and
    ends the thread; the commands behind it stay queued, no later pass
    calls any of them, and every action method raises [AttributeError]
    from then on. *)
Theorem uncaught_error_ends_worker (self : AbstractDrone num)
    (c : Command num) (rest : list (Command num)) (f : Callable)
    (e : PyException) (d : System) :
  _mavlink_thread self = alive ->
  _stopped_mavlink self = false ->
  _drone self = Some d ->
  _queue self = c :: rest ->
  com c = Some f ->
  call_raises f = Some e ->
  survivable f = false ->
  let s := fst (worker_pass self) in
  calls (snd (worker_pass self)) = pending [c]
  /\ In (system_del d) (snd (worker_pass self))
  /\ In (thread_died e) (snd (worker_pass self))
  /\ _mavlink_thread s = finished
  /\ _drone s = None
  /\ _queue s = rest
  /\ (forall n : nat, run (repeat tick_worker n) s = (s, []))
  /\ (forall name : string,
         enqueue_action s name = Raise (AttributeError "_drone")).
Proof.
  intros Halive Hrun Hd Hq Hc Hraise Hsurv s. subst s.
  unfold worker_pass. rewrite Halive, Hrun.
  unfold iteration_try, popleft, _process_command. rewrite Hq, Hc, Hraise.
  unfold survivable in Hsurv. rewrite Hraise in Hsurv.
  unfold worker_exit, _cleanup.
  destruct e as [ msg | msg | msg | msg | msg | msg | msg | msg | msg ];
    try discriminate Hsurv;
    cbn; rewrite Hd; cbn; rewrite Hc;
    (repeat split;
     [ right; right; left; reflexivity
     | right; right; right; left; reflexivity
     | intros n; induction n as [ | n IH ];
       [ reflexivity | cbn; cbn in IH; rewrite IH; reflexivity ]
     ]).
Qed.
End Generic.

Import Binary64.

Lemma caught_errors_are_printed_in_order_witness :
  let s := fst (run example_schedule (CSM_Gazebo (num := float))) in
  let r := fst (_process_command_loop [0.015625; 0.0625]%float s) in
  printed (snd r) = [ActionError "denied"]
  /\ _mavlink_thread (fst r) = alive.
Proof.
  destruct (caught_errors_are_printed_in_order [0.015625; 0.0625]%float
              (fst (run example_schedule (CSM_Gazebo (num := float)))))
    as (Hp & _ & _ & Ha);
    [ reflexivity | reflexivity | reflexivity | cbn; lia | ].
  split; [ exact Hp | exact Ha ].
Defined.

Lemma uncaught_error_ends_worker_witness :
  let crashing := failing_op "report" (RuntimeError "boom") in
  let s0 := fst (put (fst (put (CSM_Gazebo (num := float)) crashing [] []))
                   (async_op "Action.arm") [] []) in
  _mavlink_thread (fst (worker_pass s0)) = finished
  /\ pending (_queue (fst (worker_pass s0))) =
     [(async_op "Action.arm", [], [])].
Proof.
  intros crashing s0.
  destruct (@uncaught_error_ends_worker float s0
              {| com := Some crashing; args := Some []; kwargs := Some [] |}
              [{| com := Some (async_op "Action.arm"); args := Some [];
                  kwargs := Some [] |}]
              crashing (RuntimeError "boom") (system_handle 1000)
              eq_refl eq_refl eq_refl eq_refl eq_refl eq_refl eq_refl)
    as (_ & _ & _ & Hfin & _ & Hrest & _).
  split; [ exact Hfin | rewrite Hrest; reflexivity ].
Defined.
End WorkerMore.

(** ** The worker's pace *)

Module PaceProperties.
Import RealNum RealFacts.
Local Open Scope R_scope.

Lemma pass_time (self : AbstractDrone R) (end_time : R) :
  _mavlink_thread self = alive ->
  _stopped_mavlink self = false ->
  end_time + match pass_sleep end_time self with
             | Some d => d
             | None => 0
             end = Rmax end_time (_time_slice self).
Proof.
  intros Halive Hrun. unfold pass_sleep, iteration, iteration_finally.
  rewrite Halive, Hrun. cbn [snd].
  rewrite WorkerProperties.iteration_try_time_slice. cbn.
  destruct (Rlt_bool_spec end_time (_time_slice self)) as [Hlt | Hge].
  - rewrite Rmax_right by lra. ring.
  - rewrite Rmax_left by lra. ring.
Qed.

(** X10: the loop dispatches at most one command per time slice.  While
    the worker lives, [n] passes of the loop, sleeps included, last at
    least [n * time_slice], and exactly that long when every pass itself
    takes less than a time slice. *)
Theorem loop_spends_a_time_slice_per_pass (clock : list R) :
  forall self : AbstractDrone R,
    _mavlink_thread self = alive ->
    _stopped_mavlink self = false ->
    forallb survivable_command (_queue self) = true ->
    let sleeps := snd (_process_command_loop clock self) in
    INR (List.length clock) * _time_slice self <= loop_time clock sleeps
    /\ (Forall (fun end_time => end_time < _time_slice self) clock ->
        loop_time clock sleeps = INR (List.length clock) * _time_slice self).
Proof.
  induction clock as [ | end_time clock IH ];
    intros self Halive Hrun Hsurv.
  - cbn. split; [ lra | intros _; ring ].
  - cbn [_process_command_loop].
    destruct (WorkerMore.survivable_pass self Halive Hrun Hsurv) as [Hs _].
    destruct (worker_pass self) as [s e]. cbn [fst] in Hs.
    assert (Hs_alive : _mavlink_thread s = alive) by (subst s; exact Halive).
    assert (Hs_run : _stopped_mavlink s = false) by (subst s; exact Hrun).
    assert (Hs_ts : _time_slice s = _time_slice self)
      by (subst s; reflexivity).
    assert (Hs_surv : forallb survivable_command (_queue s) = true).
    { subst s. cbn. destruct (_queue self); [ reflexivity | ].
      cbn in Hsurv. apply andb_prop in Hsurv as [_ Hrest]. exact Hrest. }
    specialize (IH s Hs_alive Hs_run Hs_surv).
    destruct (_process_command_loop clock s) as [[s' e'] sleeps].
    cbn [snd] in *. rewrite Hs_ts in IH. destruct IH as [IHle IHeq].
    cbn [loop_time List.length]. rewrite S_INR.
    pose proof (pass_time self end_time Halive Hrun) as Hpass.
    rewrite Hpass.
    split.
    + pose proof (Rmax_r end_time (_time_slice self)). lra.
    + intros Hall. inversion Hall as [ | t ts Hlt Hrest ]; subst.
      rewrite (IHeq Hrest), Rmax_right by lra. ring.
Qed.

Lemma loop_spends_a_time_slice_per_pass_witness :
  let s := fst (run example_schedule (CSM_Gazebo (num := R))) in
  let clock := [1 / 100; 1 / 10; 1 / 100] in
  3 * (1 / 20) <= loop_time clock (snd (_process_command_loop clock s)).
Proof.
  intros s clock.
  destruct (loop_spends_a_time_slice_per_pass clock s
              eq_refl eq_refl eq_refl) as [Hle _].
  change (INR (List.length clock) * _time_slice s)
    with ((1 + 1 + 1) * (1 / 20)) in Hle.
  lra.
Defined.
End PaceProperties.

(** ** Lifecycle: what [stop] does and does not do *)

Module LifecycleMore.
Section Generic.
Context {num : Type} `{PyFloat num}.

(** A hook without [self.<action>()] calls never raises: it leaves the
    session as it was, up to the queue, which grows by what it puts. *)
Lemma run_hook_without_actions (steps : list HookStep) :
  forall self : AbstractDrone num,
    forallb (fun st => negb (is_action st)) steps = true ->
    exists (s : AbstractDrone num) (e : list (Effect num))
           (added : list (Command num)),
      run_hook steps self = (s, e, None)
      /\ s = set_queue (_queue self ++ added) self
      /\ calls e = []
      /\ (added = [] <-> existsb is_put steps = false).
Proof.
  induction steps as [ | st steps IH ]; intros self Hno.
  - exists self, [], []. cbn. rewrite app_nil_r.
    repeat split; destruct self; reflexivity.
  - cbn in Hno. apply andb_prop in Hno as [Hst Hrest].
    destruct st as [ r | name | obj ]; [ | discriminate Hst | ].
    + destruct (IH self Hrest) as (s & e & added & Hrun & Hs & Hc & Hadd).
      exists s, (released r :: e), added. cbn. rewrite Hrun.
      repeat split; try assumption; apply Hadd.
    + destruct (IH (fst (put self obj [] [])) Hrest)
        as (s & e & added & Hrun & Hs & Hc & Hadd).
      exists s, (log_info (user_called obj) :: e),
        ({| com := Some obj; args := Some []; kwargs := Some [] |} :: added).
      cbn. cbn in Hrun. rewrite Hrun.
      split; [ reflexivity | ].
      split; [ rewrite Hs; cbn; rewrite <- app_assoc; reflexivity | ].
      split; [ exact Hc | ].
      split; intros Habs; discriminate Habs.
Qed.



(** X13: nobody drains the queue once the worker is gone.  If the worker
    thread is over and [stop] finds something queued after the teardown
    hook (the disarm it enqueued itself, because the Link Handle is still
    there, or a command the hook put), its spin wait never ends. *)
Theorem stop_spins_without_worker (self : AbstractDrone num) :
  _mavlink_thread self = finished ->
  forallb (fun st => negb (is_action st)) (teardown self) = true ->
  _drone self <> None \/ existsb is_put (teardown self) = true ->
  exists (s : AbstractDrone num) (e : list (Effect num)),
    stop self = SpinsForever s e
    /\ _queue s <> []
    /\ calls e = [].
Proof.
  intros Hfin Hno Hwhy.
  unfold stop. cbv zeta.
  set (s0 := set_queue [] self).
  assert (Hdisarm : exists sA eA,
             match disarm s0 with
             | Ok (s, e) => Ok (s, e)
             | Raise (AttributeError _) => Ok (s0, [])
             | Raise e => Raise e
             end = Ok (sA, eA)
             /\ calls eA = []
             /\ _mavlink_thread sA = finished
             /\ teardown sA = teardown self
             /\ _loop_thread sA = _loop_thread self
             /\ (_drone self <> None -> _queue sA <> [])).
  { unfold disarm, enqueue_action, drone_action.
    destruct (_drone self) as [ d | ] eqn:Hd.
    - subst s0. cbn. rewrite Hd. eexists _, _.
      split; [ reflexivity | ].
      cbn. repeat split; try assumption. intros _. discriminate.
    - subst s0. cbn. rewrite Hd. eexists _, _.
      split; [ reflexivity | ].
      cbn. repeat split; try assumption. intros Habs. contradiction. }
  destruct Hdisarm as (sA & eA & -> & HcA & HtA & HhA & HlA & HqA).
  set (sC := match _loop_thread (set_stopped_loop true sA) with
             | unstarted => set_stopped_loop true sA
             | _ => set_loop_thread finished (set_stopped_loop true sA)
             end).
  assert (HC : teardown sC = teardown self /\ _queue sC = _queue sA
               /\ _mavlink_thread sC = finished).
  { subst sC. destruct (_loop_thread (set_stopped_loop true sA));
      cbn; repeat split; assumption. }
  destruct HC as (HhC & HqC & HtC).
  rewrite HhC.
  destruct (run_hook_without_actions (teardown self) sC Hno)
    as (sD & e3 & added & -> & HsD & Hc3 & Hadded).
  assert (HqD : _queue sD <> []).
  { rewrite HsD. cbn. rewrite HqC.
    destruct Hwhy as [Hd | Hput].
    - specialize (HqA Hd). destruct (_queue sA); [ contradiction | ].
      discriminate.
    - destruct added as [ | c added ].
      + destruct Hadded as [Hnone _]. rewrite (Hnone eq_refl) in Hput.
        discriminate.
      + destruct (_queue sA); discriminate. }
  assert (HtD : _mavlink_thread sD = finished)
    by (rewrite HsD; exact HtC).
  assert (Hdrain : drain (List.length (_queue sD)) sD = (sD, [])).
  { destruct (_queue sD) eqn:Hq; [ contradiction | ].
    cbn. rewrite Hq, HtD. reflexivity. }
  rewrite Hdrain.
  destruct (_queue sD) eqn:Hq; [ contradiction | ].
  eexists _, _. split; [ reflexivity | ].
  split; [ rewrite Hq; discriminate | ].
  rewrite !WorkerProperties.calls_app, HcA, Hc3. reflexivity.
Qed.

(** X14: after the worker died of an uncaught error, and with no user
    loop running, a [stop] whose teardown hook only releases resources of
    its own returns normally, but the vehicle is never disarmed: no
    command is enqueued or dispatched, only the event loop is stopped, the
    hook run and the logging handlers closed. *)
Theorem stop_after_crash_sends_no_disarm (self : AbstractDrone num) :
  _mavlink_thread self = finished ->
  _loop_thread self <> alive ->
  _drone self = None ->
  forallb is_release (teardown self) = true ->
  exists s1 : AbstractDrone num,
    stop self =
    Returned s1
      (loop_stop :: released_by (teardown self)
       ++ map handler_closed (_logger_handlers self))
    /\ calls (loop_stop :: released_by (teardown self)
              ++ map (@handler_closed num) (_logger_handlers self)) = []
    /\ stopped (teardown self) s1.
Proof.
  intros Hfin Hloop Hd Hrel.
  assert (Hquiet : forall (steps : list HookStep) (hs : list string),
             calls (released_by steps ++ map (@handler_closed num) hs) = []).
  { induction steps as [ | st steps IH ]; intros hs.
    - induction hs as [ | h hs IHh ]; [ reflexivity | exact IHh ].
    - destruct st; cbn; apply IH. }
  destruct self as [sm sl ts mfd addr drone q wt lt handlers tel hook].
  cbn in Hfin, Hloop, Hd, Hrel. subst.
  unfold stop.
  destruct lt; [ | contradiction Hloop; reflexivity | ];
    cbn; rewrite (LifecycleProperties.run_hook_releases _ _ Hrel);
    cbn; rewrite ?app_nil_r; eexists;
    (split; [ reflexivity
            | split; [ apply Hquiet | constructor; cbn; congruence ] ]).
Qed.
End Generic.

Import Binary64.



Lemma stop_spins_without_worker_witness :
  exists (s : AbstractDrone float) (e : list (Effect float)),
    stop (set_mavlink_thread finished CSM_Gazebo) = SpinsForever s e
    /\ _queue s <> [].
Proof.
  assert (Hlink : _drone (set_mavlink_thread finished
                            (CSM_Gazebo (num := float))) <> None)
    by (cbn; discriminate).
  destruct (@stop_spins_without_worker float
              (set_mavlink_thread finished CSM_Gazebo)
              eq_refl eq_refl (or_introl Hlink))
    as (s & e & Hs & Hq & _).
  exists s, e. split; assumption.
Defined.

Lemma stop_after_crash_sends_no_disarm_witness :
  let crashing := failing_op "report" (RuntimeError "boom") in
  let crashed :=
    fst (worker_pass
           (fst (put (CSM_Gazebo (num := float)) crashing [] []))) in
  exists s1 : AbstractDrone float,
    stop crashed =
    Returned s1
      [loop_stop; released "fp"; handler_closed "mavlog.log";
       handler_closed "stdout"].
Proof.
  intros crashing crashed.
  assert (Hloop : _loop_thread crashed <> alive) by (cbn; discriminate).
  destruct (@stop_after_crash_sends_no_disarm float crashed
              eq_refl Hloop eq_refl eq_refl) as (s1 & Hs & _).
  exists s1. exact Hs.
Defined.
End LifecycleMore.

(** ** Plugin caches as ring buffers *)

Module PluginMore.
Lemma lastn_short (A : Type) (n : nat) (l : list A) :
  (List.length l <= n)%nat -> lastn n l = l.
Proof.
  intros Hlen. unfold lastn.
  replace (List.length l - n)%nat with 0%nat by lia. reflexivity.
Qed.

Lemma tl_skipn (A : Type) (k : nat) :
  forall l : list A, tl (skipn k l) = skipn (S k) l.
Proof.
  induction k as [ | k IH ]; intros l.
  - destruct l; reflexivity.
  - destruct l as [ | a l ]; [ reflexivity | ].
    cbn [skipn]. rewrite IH. reflexivity.
Qed.

Lemma skipn_snoc (A : Type) (k : nat) (x : A) :
  forall l : list A,
    (k <= List.length l)%nat -> skipn k (l ++ [x]) = skipn k l ++ [x].
Proof.
  induction k as [ | k IH ]; intros l Hk; [ reflexivity | ].
  destruct l as [ | a l ]; cbn in Hk; [ lia | ].
  cbn. apply IH. lia.
Qed.

(** Appending to a bounded deque that holds the last [n] entries of a
    history makes it hold the last [n] entries of the longer history. *)
Lemma deque_append_lastn (A : Type) (n : nat) (h : list A) (x : A) :
  (0 < n)%nat ->
  deque_append n (lastn n h) x = lastn n (h ++ [x]).
Proof.
  intros Hpos. unfold deque_append, lastn.
  rewrite !length_app, length_skipn. cbn [List.length].
  destruct (Nat.le_gt_cases (List.length h) n) as [Hshort | Hlong].
  - replace (List.length h - n)%nat with 0%nat by lia. cbn [skipn].
    destruct (Nat.ltb_spec n (List.length h - 0 + 1)) as [Hover | Hfits].
    + assert (Hfull : List.length h = n) by lia.
      replace (List.length h + 1 - n)%nat with 1%nat by lia.
      destruct h as [ | a h ]; [ cbn in Hfull; lia | reflexivity ].
    + replace (List.length h + 1 - n)%nat with 0%nat by lia. reflexivity.
  - destruct (Nat.ltb_spec n
                (List.length h - (List.length h - n) + 1)) as [Hover | Hfits];
      [ | lia ].
    replace (List.length h + 1 - n)%nat
      with (S (List.length h - n)) by lia.
    rewrite skipn_snoc by lia. rewrite <- tl_skipn.
    destruct (skipn (List.length h - n) h) as [ | a t ] eqn:Hs;
      [ | reflexivity ].
    apply (f_equal (@List.length A)) in Hs.
    rewrite length_skipn in Hs. cbn in Hs. lia.
Qed.

Section Caches.
Variable request : Type.

Lemma plugin_run_caches (evs : list (PluginEvent request)) :
  forall (p : AbstractPlugin request) (tasks : list (Task request))
         (values : list TaskValue),
    _task_cache p = lastn 10 tasks ->
    _result_cache p = lastn 10 values ->
    _task_cache (plugin_run evs p) = lastn 10 (tasks ++ submissions evs)
    /\ _result_cache (plugin_run evs p) = lastn 10 (values ++ results evs).
Proof.
  unfold plugin_run.
  induction evs as [ | ev evs IH ]; intros p tasks values Ht Hv.
  - cbn. rewrite !app_nil_r. split; assumption.
  - destruct ev as [ t | t ];
      cbn [fold_left plugin_step submit_task fst submissions results].
    + change (tasks ++ t :: submissions evs)
        with (tasks ++ [t] ++ submissions evs).
      rewrite (app_assoc tasks [t] (submissions evs)).
      apply IH; cbn; [ | exact Hv ].
      rewrite Ht. apply deque_append_lastn. lia.
    + unfold _task_callback. destruct (result t) as [ v | e ].
      * change (values ++ v :: results evs)
          with (values ++ [v] ++ results evs).
        rewrite (app_assoc values [v] (results evs)).
        apply IH; cbn; [ exact Ht | ].
        rewrite Hv. apply deque_append_lastn. lia.
      * apply IH; assumption.
Qed.

(** X15: each cache is a ring buffer over its own history.  After any
    sequence of submissions and completions on a fresh plugin, the
    Pending-Task Cache holds the last 10 tasks submitted, oldest first,
    whether or not they have completed (completion removes nothing from
    it), and the Result Cache holds the last 10 results of the tasks that
    completed without raising; a task that raised leaves no result. *)
Theorem caches_hold_the_last_ten (evs : list (PluginEvent request)) :
  let p := plugin_run evs (plugin_init request) in
  _task_cache p = lastn 10 (submissions evs)
  /\ _result_cache p = lastn 10 (results evs).
Proof.
  apply (plugin_run_caches evs (plugin_init request) [] []); reflexivity.
Qed.
End Caches.
End PluginMore.

(** ** The offboard plugin: order of requests, and the late answer *)

Module OffboardMore.
Import OffboardPlugin.

(** A bounded append keeps the newest entries in place as long as they
    fit. *)
Lemma deque_append_keeps (A : Type) (maxlen : nat) (older recent : list A)
    (x : A) :
  (List.length recent < maxlen)%nat ->
  exists older' : list A,
    deque_append maxlen (older ++ recent) x = older' ++ (recent ++ [x]).
Proof.
  intros Hfit. unfold deque_append.
  destruct (Nat.ltb_spec maxlen (List.length ((older ++ recent) ++ [x])))
    as [Hover | Hfits].
  - destruct older as [ | a older ].
    + rewrite !length_app in Hover. cbn in Hover. lia.
    + exists older. cbn. rewrite <- app_assoc. reflexivity.
  - exists older. rewrite <- app_assoc. reflexivity.
Qed.

Section WithController.
Context {num : Type} `{PyFloat num}.
Variable controller : @Request num -> Result TaskValue.

(** X16: of [start], [hold] and [stop], only [stop] reaches the flight
    controller.  [hold] raises [NameError] at [VelocityBodyYawspeed] and
    [start] at [Attitude], neither of which [offboard.py] imports, before
    anything is submitted: the Pending-Task Cache is as it was.  After
    [stop], the cache ends with the stop request. *)
Theorem only_stop_reaches_the_controller (self : Offboard) :
  hold controller self
  = (self, Raise (NameError "name 'VelocityBodyYawspeed' is not defined"))
  /\ snd (start controller self)
     = Raise (NameError "name 'Attitude' is not defined")
  /\ _task_cache (plugin (fst (start controller self)))
     = _task_cache (plugin self)
  /\ (exists older : list (Task Request),
         _task_cache (plugin (stop controller self)) =
         older ++ [future controller request_stop]).
Proof.
  split; [ reflexivity | split; [ reflexivity | split; [ reflexivity | ] ] ].
  unfold stop, submit, set_is_active, submit_task.
  cbn [plugin _task_cache fst].
  destruct (@deque_append_keeps _ 10 (_task_cache (plugin self)) []
              (future controller request_stop)) as [o1 H1];
    [ cbn; lia | ].
  rewrite app_nil_r in H1. cbn [app] in H1. rewrite H1. exists o1. reflexivity.
Qed.

(** X17: the flag can be overwritten behind the caller's back.  When the
    [is_active] query scheduled by the constructor completes, its callback
    sets the flag to the flight controller's answer and drops the task,
    also when [start] or [stop] ran in between: after [start] has set the
    flag and raised, a late answer [False] leaves [is_active] at
    [False]. *)
Theorem late_answer_overwrites_flag (self : Offboard) (b : bool) :
  controller request_is_active = Ok (value_bool b) ->
  let query := future controller request_is_active in
  let started := fst (start controller self) in
  is_active started = true
  /\ is_active (_is_active_callback started query) = b
  /\ is_active (_is_active_callback (stop controller self) query) = b
  /\ _is_active_task (_is_active_callback started query) = None
  /\ plugin (_is_active_callback started query) = plugin self.
Proof.
  intros Hanswer query started. unfold _is_active_callback.
  subst query started. cbn.
  rewrite Hanswer. repeat split.
Qed.
End WithController.

Import Binary64.

(** The controller reports offboard mode as inactive; everything else it
    accepts. *)
Lemma late_answer_overwrites_flag_witness :
  let controller := fun r : @Request float =>
    match r with
    | request_is_active => Ok (value_bool false)
    | _ => Ok value_none
    end in
  is_active (fst (start controller (init controller))) = true
  /\ is_active
       (_is_active_callback (fst (start controller (init controller)))
          (future controller request_is_active)) = false.
Proof.
  intros controller.
  destruct (@late_answer_overwrites_flag float _ controller
              (init controller) false eq_refl)
    as (Hset & Hlate & _).
  split; [ exact Hset | exact Hlate ].
Defined.
End OffboardMore.

(** ** The transponder plugin *)

Module TransponderProperties.
Section Generic.
Variable vehicle : Type.
Variable vehicle_eqb : vehicle -> vehicle -> bool.
Hypothesis vehicle_eqb_eq :
  forall a b : vehicle, vehicle_eqb a b = true <-> a = b.

Lemma update_step (sample : vehicle) (self : Transponder vehicle) :
  (if differs vehicle_eqb sample (_transponder_data self)
   then {| _transponder_data := Some sample |}
   else self) = {| _transponder_data := Some sample |}.
Proof.
  destruct self as [[ v | ]]; cbn; [ | reflexivity ].
  destruct (vehicle_eqb sample v) eqn:Heq; cbn; [ | reflexivity ].
  apply vehicle_eqb_eq in Heq. subst. reflexivity.
Qed.

(** X18: the comparison that guards the assignment in
    [_transponder_update] cannot be observed: after the stream delivered
    any samples, [transponder()] answers the last sample delivered, and
    when nothing was delivered what it answered before ([None] at
    first). *)
Theorem transponder_answers_last_sample (samples : list vehicle)
    (self : Transponder vehicle) :
  transponder (_transponder_update vehicle_eqb samples self) =
  match rev samples with
  | last_sample :: _ => Some last_sample
  | [] => transponder self
  end.
Proof.
  revert self. induction samples as [ | sample samples IH ]; intros self.
  - reflexivity.
  - cbn [_transponder_update rev]. rewrite update_step, IH.
    destruct (rev samples) as [ | l rest ]; reflexivity.
Qed.
End Generic.

Lemma transponder_answers_last_sample_witness :
  transponder (_transponder_update Nat.eqb [7; 7; 3]%nat
                 {| _transponder_data := None |}) = Some 3%nat.
Proof.
  apply (transponder_answers_last_sample Nat.eqb Nat.eqb_eq [7; 7; 3]%nat).
Defined.
End TransponderProperties.

(** ** Connecting *)

Module ConnectProperties.
Section Generic.
Context {num : Type}.

Lemma await_connected_spec (states : list bool) :
  (fst (await_connected states) = true ->
   exists before : list bool,
     states = before ++ true :: snd (await_connected states)
     /\ forallb negb before = true)
  /\ (fst (await_connected states) = false ->
      forallb negb states = true /\ snd (await_connected states) = []).
Proof.
  induction states as [ | [ | ] states IH ]; cbn.
  - split; [ discriminate | intros _; split; reflexivity ].
  - split; [ intros _; exists []; split; reflexivity | discriminate ].
  - destruct IH as [IHyes IHno]. split.
    + intros Hyes. destruct (IHyes Hyes) as (before & Heq & Hall).
      exists (false :: before). split; [ cbn; f_equal; exact Heq | exact Hall ].
    + exact IHno.
Qed.

(** X19: a connection that raises nothing makes [_connect] wait on the
    connection-state stream: it reads states up to and including the first
    connected one, reports the connection as established once, and leaves
    the later states unread; nothing propagates and the session is
    unchanged. *)
Theorem connect_waits_for_first_connected (self : AbstractDrone num)
    (d : System) (before later : list bool) :
  _drone self = Some d ->
  forallb negb before = true ->
  let r := _connect None (before ++ true :: later) self in
  session r = self
  /\ connect_effects r = []
  /\ established r = true
  /\ unread r = later
  /\ propagated r = None.
Proof.
  intros Hd Hbefore. unfold _connect, _async_connect. rewrite Hd.
  assert (Hscan : await_connected (before ++ true :: later) = (true, later)).
  { clear Hd. induction before as [ | [ | ] before IH ]; cbn in *;
      [ reflexivity | discriminate Hbefore | exact (IH Hbefore) ]. }
  rewrite Hscan. cbn. repeat split.
Qed.

(** X20: an interrupt during the connection attempt does not surface as
    [KeyboardInterrupt].  The [except] clause releases the Link Handle
    and re-raises, but the [finally] clause then reaches for the released
    handle to wait for the connection, and the [AttributeError] of that
    access is what propagates; no connection state is read. *)
Theorem interrupted_connect_raises_attribute_error
    (self : AbstractDrone num) (d : System) (states : list bool) :
  _drone self = Some d ->
  let r := _connect (Some KeyboardInterrupt) states self in
  propagated r = Some (Exception (AttributeError "_drone"))
  /\ _drone (session r) = None
  /\ connect_effects r = [system_del d]
  /\ established r = false
  /\ unread r = states.
Proof.
  intros Hd. unfold _connect, _cleanup, _async_connect. rewrite Hd.
  cbn. repeat split.
Qed.
End Generic.

Import Binary64.

Lemma connect_waits_for_first_connected_witness :
  let r := _connect None [false; false; true; true]
             (CSM_Gazebo (num := float)) in
  established r = true /\ unread r = [true] /\ propagated r = None.
Proof.
  destruct (@connect_waits_for_first_connected float CSM_Gazebo
              (system_handle 1000) [false; false] [true]
              eq_refl eq_refl) as (_ & _ & He & Hu & Hp).
  split; [ exact He | split; [ exact Hu | exact Hp ] ].
Defined.

Lemma interrupted_connect_raises_attribute_error_witness :
  propagated (_connect (Some KeyboardInterrupt) [true]
                (CSM_Gazebo (num := float)))
  = Some (Exception (AttributeError "_drone")).
Proof.
  apply (@interrupted_connect_raises_attribute_error float CSM_Gazebo
           (system_handle 1000) [true] eq_refl).
Defined.
End ConnectProperties.
